(** * pandas-vet: the [check] accessor of [DataFrameVet.py]

    A shallow embedding of [src/pandas_vet/DataFrameVet.py].  Every public
    method of the accessor is a thin pass-through: it resolves the data,
    prints or plots a derived report, and returns [self._obj].  The methods
    are written in a small state-and-exception monad over a [world] that
    holds the object heap, the pandas option registry, the timer and the
    output produced so far. *)

From Stdlib Require Import ZArith List String Ascii Bool Lia.
From stdpp Require Import base option list strings pretty.

Set Warnings "-register-all".
Local Open Scope string_scope.
Local Open Scope Z_scope.

(** ** Python strings

    A [str] is a Rocq [string] holding the UTF-8 bytes of the text. *)

(** [s.startswith(p)] *)
Definition startswith (s p : string) : bool := String.prefix p s.

(** [s.endswith(suf)]: some tail of [s] is [suf]. *)
Fixpoint endswith (s suf : string) : bool :=
  if String.eqb s suf then true
  else match s with
       | EmptyString => false
       | String _ t => endswith t suf
       end.

(** [sub in s] on strings, as a proposition. *)
Definition str_contains (s sub : string) : Prop :=
  exists pre post : string, s = pre +:+ sub +:+ post.

(** [", ".join(l)] *)
Fixpoint str_join (sep : string) (l : list string) : string :=
  match l with
  | [] => ""
  | [x] => x
  | x :: rest => x +:+ sep +:+ str_join sep rest
  end.

(** [c in s] for a character. *)
Definition has_char (c : ascii) (s : string) : bool :=
  existsb (Ascii.eqb c) (list_ascii_of_string s).

Definition single_quote : ascii := ascii_of_nat 39.
Definition double_quote : ascii := ascii_of_nat 34.
Definition backslash : ascii := ascii_of_nat 92.

(** The quote [repr] puts around a [str]: the single quote, unless the text
    holds one and holds no double quote. *)
Definition quote_of (s : string) : ascii :=
  if (has_char single_quote s && negb (has_char double_quote s))%bool
  then double_quote else single_quote.

Definition hex_digit (n : nat) : ascii :=
  nth n (list_ascii_of_string "0123456789abcdef") "0"%char.

(** One character as [repr] writes it between the quotes [q]: the quote
    and the backslash behind a backslash, tab, newline and return by their
    letters, the other control characters in hexadecimal, the rest as it
    is.  Text outside ASCII is taken to be printable, as letters and the
    symbols of the labels are, and is left as it is. *)
Definition repr_char (q a : ascii) : string :=
  let n := nat_of_ascii a in
  if (Ascii.eqb a q || Ascii.eqb a backslash)%bool
  then String backslash (String a "")
  else if Nat.eqb n 9 then String backslash "t"
  else if Nat.eqb n 10 then String backslash "n"
  else if Nat.eqb n 13 then String backslash "r"
  else if (Nat.ltb n 32 || Nat.eqb n 127)%bool
       then String backslash
              (String "x" (String (hex_digit (n / 16))
                             (String (hex_digit (n mod 16)) "")))
  else String a "".

Fixpoint repr_body (q : ascii) (s : string) : string :=
  match s with
  | EmptyString => String q ""
  | String a rest => repr_char q a +:+ repr_body q rest
  end.

(** [repr] of a [str]. *)
Definition repr_str (s : string) : string :=
  String (quote_of s) (repr_body (quote_of s) s).

(** [str] of a list of strings, which shows each by its [repr]:
    ['a', 'b']. *)
Definition repr_str_list (l : list string) : string :=
  "[" +:+ str_join ", " (map repr_str l) +:+ "]".

(** The characters [repr] leaves as they are between single quotes. *)
Definition kept_char (a : ascii) : bool :=
  let n := nat_of_ascii a in
  (Nat.leb 32 n && negb (Nat.eqb n 39) && negb (Nat.eqb n 92)
   && negb (Nat.eqb n 127))%bool.

(** A text [repr] shows as it is between single quotes. *)
Definition kept_text (s : string) : bool :=
  forallb kept_char (list_ascii_of_string s).

(** Printable ASCII other than the single quote and the backslash. *)
Definition plain_char (a : ascii) : bool :=
  (kept_char a && Nat.leb (nat_of_ascii a) 126)%bool.

(** A label made of such characters. *)
Definition plain_label (s : string) : bool :=
  forallb plain_char (list_ascii_of_string s).

(** ** Tables of the host engine *)

(** A cell; [CNull] is pandas' missing value ([None]/[NaN]). *)
Inductive cell : Type :=
| CNull
| CInt (z : Z)
| CStr (s : string).

Global Instance cell_eq_dec : EqDecision cell.
Proof. solve_decision. Defined.

(** A [DataFrame]: named columns, and the rows in order. *)
Record DataFrame : Type := mkDataFrame {
  df_columns : list string;
  df_rows : list (list cell)
}.

(** A [Series]: index labels and values. *)
Record Series : Type := mkSeries {
  s_index : list cell;
  s_values : list cell
}.

(** What pandas methods are called on. *)
Inductive table : Type :=
| TFrame (d : DataFrame)
| TSeries (s : Series).

Definition loc := nat.

(** Python values that flow through the accessor.  [VObj l] is a reference
    to the DataFrame object stored at [l]; [VFrame] and [VSeries] are fresh
    temporaries computed by the host engine. *)
Inductive pyval : Type :=
| VNone
| VBool (b : bool)
| VInt (z : Z)
| VStr (s : string)
| VList (l : list pyval)
| VTuple (l : list pyval)
| VObj (l : loc)
| VFrame (d : DataFrame)
| VSeries (s : Series)
| VOpaque (tag : string) (args : list pyval).

Definition kwargs := list (string * pyval).

(** The object heap: which DataFrame lives at which location. *)
Definition heap := loc -> DataFrame.

(** ** Exceptions and outcomes *)

Inductive exn_class : Type :=
| DataError
| TypeError
| AttributeError
| KeyError
| ValueError
| OtherError (name : string).

Inductive exn : Type :=
| Exn (cls : exn_class) (msg : string).

Inductive outcome (A : Type) : Type :=
| Ok (a : A)
| Raise (e : exn).
Arguments Ok {A} a.
Arguments Raise {A} e.

Definition outcome_bind {A B : Type} (o : outcome A) (k : A -> outcome B)
  : outcome B :=
  match o with
  | Ok a => k a
  | Raise e => Raise e
  end.

(** A user-supplied callable ([fn], a callable [condition]) and the lambdas
    the accessor builds.  It is applied to a value in a heap, returns a value
    or raises, and leaves a heap behind: user code is handed the object
    itself, not a copy, and may change it in place.  The output of a world
    is what the accessor prints and plots; what user code prints by itself
    is not part of it.  [cl_source] is the source text the callable was
    written as. *)
Record pycallable : Type := mkCallable {
  cl_call : heap -> pyval -> outcome pyval * heap;
  cl_source : string
}.

(** A callable that reads the heap and leaves it as it is. *)
Definition reader (f : heap -> pyval -> outcome pyval) (source : string)
  : pycallable :=
  mkCallable (fun h v => (f h v, h)) source.

(** [lambda df: df], the default [fn]. *)
Definition identity_fn : pycallable :=
  reader (fun _ v => Ok v) "lambda df: df".

(** A callable leaves every object of the heap as it found it. *)
Definition keeps_heap (f : pycallable) : Prop :=
  forall (h : heap) (v : pyval), snd (cl_call f h v) = h.

(** ** Truthiness and [str()] *)

(** [bool(v)]; pandas objects refuse to be used as a truth value. *)
Definition py_bool (v : pyval) : outcome bool :=
  match v with
  | VNone => Ok false
  | VBool b => Ok b
  | VInt z => Ok (negb (Z.eqb z 0))
  | VStr s => Ok (negb (String.eqb s ""))
  | VList l | VTuple l => Ok (match l with [] => false | _ => true end)
  | VObj _ | VFrame _ | VSeries _ =>
      Raise (Exn ValueError "The truth value of a DataFrame is ambiguous.")
  | VOpaque _ _ => Ok true
  end.

(** Truthiness of a [str] argument such as [check_name] or [text]. *)
Definition str_truthy (s : option string) : bool :=
  match s with
  | None => false
  | Some s => negb (String.eqb s "")
  end.

(** A column selector: absent, one label, or a list of labels. *)
Inductive subset_sel : Type :=
| SNone
| SName (c : string)
| SList (cs : list string).

(** [bool(subset)] *)
Definition subset_truthy (s : subset_sel) : bool :=
  match s with
  | SNone => false
  | SName c => negb (String.eqb c "")
  | SList cs => match cs with [] => false | _ => true end
  end.

(** [str(subset)], as an f-string interpolates it. *)
Definition str_of_subset (s : subset_sel) : string :=
  match s with
  | SNone => "None"
  | SName c => c
  | SList cs => repr_str_list cs
  end.

(** A selector whose labels [str] shows as they are. *)
Definition plain_subset (s : subset_sel) : bool :=
  match s with
  | SList cs => forallb plain_label cs
  | _ => true
  end.

(** [len(subset)] *)
Definition len_subset (s : subset_sel) : outcome Z :=
  match s with
  | SNone => Raise (Exn TypeError "object of type 'NoneType' has no len()")
  | SName c => Ok (Z.of_nat (String.length c))
  | SList cs => Ok (Z.of_nat (length cs))
  end.

Definition str_of_Z (z : Z) : string := pretty z.

(** ** Primitives of the host engine (pandas)

    The accessor calls these on the data it resolved.  They are the host's,
    not this repository's; they are written out here from pandas' documented
    behaviour as far as the reports need them. *)

Definition is_null (c : cell) : bool :=
  match c with
  | CNull => true
  | _ => false
  end.

Fixpoint count_true (l : list bool) : Z :=
  match l with
  | [] => 0
  | b :: rest => (if b then 1 else 0) + count_true rest
  end.

Fixpoint col_index (c : string) (cols : list string) : option nat :=
  match cols with
  | [] => None
  | x :: rest => if String.eqb x c then Some 0%nat
                 else option_map S (col_index c rest)
  end.

Definition cell_at (r : list cell) (j : nat) : cell := default CNull (r !! j).

Definition column_values (d : DataFrame) (j : nat) : list cell :=
  map (fun r => cell_at r j) (df_rows d).

Definition range_index (n : nat) : list cell :=
  map (fun i => CInt (Z.of_nat i)) (seq 0 n).

(** [all the labels of cs, as positions], or the first missing label. *)
Fixpoint col_indices (cs cols : list string) : string + list nat :=
  match cs with
  | [] => inr []
  | c :: rest =>
      match col_index c cols with
      | None => inl c
      | Some j => match col_indices rest cols with
                  | inl m => inl m
                  | inr js => inr (j :: js)
                  end
      end
  end.

(** [df[subset]]: one label gives a Series, a list of labels a DataFrame;
    a label that is not a column raises [KeyError]. *)
Definition getitem_frame (d : DataFrame) (sel : subset_sel) : outcome pyval :=
  match sel with
  | SNone => Raise (Exn KeyError "None")
  | SName c =>
      match col_index c (df_columns d) with
      | Some j => Ok (VSeries (mkSeries (range_index (length (df_rows d)))
                                        (column_values d j)))
      | None => Raise (Exn KeyError (repr_str c))
      end
  | SList cs =>
      match col_indices cs (df_columns d) with
      | inr js => Ok (VFrame (mkDataFrame cs
                     (map (fun r => map (cell_at r) js) (df_rows d))))
      | inl c => Raise (Exn KeyError (repr_str c))
      end
  end.

(** [data[subset]] on whatever [data] is. *)
Definition getitem (h : heap) (data : pyval) (sel : subset_sel)
  : outcome pyval :=
  match data with
  | VObj l => getitem_frame (h l) sel
  | VFrame d => getitem_frame d sel
  | VStr _ => Raise (Exn TypeError "string indices must be integers")
  | _ => Raise (Exn TypeError "object is not subscriptable")
  end.

(** The pandas object a value stands for, if any. *)
Definition as_table (h : heap) (v : pyval) : option table :=
  match v with
  | VObj l => Some (TFrame (h l))
  | VFrame d => Some (TFrame d)
  | VSeries s => Some (TSeries s)
  | _ => None
  end.

Definition no_attribute (name : string) : exn :=
  Exn AttributeError ("object has no attribute " +:+ repr_str name).

(** [df.isna()] of a DataFrame, cell by cell. *)
Definition isna_frame (d : DataFrame) : list (list bool) :=
  map (map is_null) (df_rows d).

(** [.sum()] of a boolean DataFrame: the number of [True] per column. *)
Definition sum_columns (ncols : nat) (bf : list (list bool)) : list Z :=
  map (fun j => count_true (map (fun r => default false (r !! j)) bf))
      (seq 0 ncols).

(** [.any(axis=1)] of a boolean DataFrame: one flag per row. *)
Definition any_axis1 (bf : list (list bool)) : list bool :=
  map (existsb (fun b => b)) bf.

(** [data.isna().sum()] *)
Definition isna_sum (t : table) : pyval :=
  match t with
  | TFrame d =>
      VSeries (mkSeries (map CStr (df_columns d))
                        (map CInt (sum_columns (length (df_columns d))
                                               (isna_frame d))))
  | TSeries s => VInt (count_true (map is_null (s_values s)))
  end.

(** [df.isna().any(axis=1).sum()] *)
Definition isna_any_axis1_sum (d : DataFrame) : pyval :=
  VInt (count_true (any_axis1 (isna_frame d))).

(** [keep] of [duplicated]: ['first'] (the default), ['last'] or [False]. *)
Inductive keep_opt : Type :=
| KeepFirst
| KeepLast
| KeepFalse.

(** A row is flagged when an equal row came before it. *)
Fixpoint duplicated_first (seen : list (list cell)) (rows : list (list cell))
  : list bool :=
  match rows with
  | [] => []
  | r :: rest => bool_decide (r ∈ seen) :: duplicated_first (r :: seen) rest
  end.

Definition occurrences (r : list cell) (rows : list (list cell)) : nat :=
  length (List.filter (fun x => bool_decide (x = r)) rows).

Definition duplicated_rows (keep : keep_opt) (rows : list (list cell))
  : list bool :=
  match keep with
  | KeepFirst => duplicated_first [] rows
  | KeepLast => rev (duplicated_first [] (rev rows))
  | KeepFalse => map (fun r => Nat.ltb 1 (occurrences r rows)) rows
  end.

(** The keyword arguments [duplicated] accepts through [ndups]. *)
Definition parse_keep (kw : kwargs) : outcome keep_opt :=
  match kw with
  | [] => Ok KeepFirst
  | [(k, v)] =>
      if String.eqb k "keep" then
        match v with
        | VStr s =>
            if String.eqb s "first" then Ok KeepFirst
            else if String.eqb s "last" then Ok KeepLast
            else Raise (Exn ValueError
                         "keep must be either 'first', 'last' or False")
        | VBool false => Ok KeepFalse
        | _ => Raise (Exn ValueError
                       "keep must be either 'first', 'last' or False")
        end
      else Raise (Exn TypeError
                   "duplicated() got an unexpected keyword argument")
  | _ => Raise (Exn TypeError
                 "duplicated() got an unexpected keyword argument")
  end.

Definition table_rows (t : table) : list (list cell) :=
  match t with
  | TFrame d => df_rows d
  | TSeries s => map (fun c => [c]) (s_values s)
  end.

(** [data.duplicated] with the keyword arguments passed on, then [.sum()] *)
Definition duplicated_sum (kw : kwargs) (t : table) : outcome pyval :=
  outcome_bind (parse_keep kw) (fun keep =>
    Ok (VInt (count_true (duplicated_rows keep (table_rows t))))).

(** [data.shape] *)
Definition df_shape (t : table) : list Z :=
  match t with
  | TFrame d => [Z.of_nat (length (df_rows d)); Z.of_nat (length (df_columns d))]
  | TSeries s => [Z.of_nat (length (s_values s))]
  end.

(** [data.shape[i]] *)
Definition shape_at (t : table) (i : nat) : outcome pyval :=
  match df_shape t !! i with
  | Some n => Ok (VInt n)
  | None => Raise (Exn (OtherError "IndexError") "tuple index out of range")
  end.

(** [l[:n]] with Python's reading of a negative [n]. *)
Definition py_take {A : Type} (n : Z) (l : list A) : list A :=
  take (Z.to_nat (if n <? 0 then Z.of_nat (length l) + n else n)) l.

(** [l[-n:]] if [n] is not zero, nothing otherwise, as [tail] has it. *)
Definition py_last {A : Type} (n : Z) (l : list A) : list A :=
  if n =? 0 then []
  else if n <? 0 then drop (Z.to_nat (- n)) l
  else drop (length l - Z.to_nat n) l.

Definition map_rows (f : forall A : Type, list A -> list A) (t : table) : pyval :=
  match t with
  | TFrame d => VFrame (mkDataFrame (df_columns d) (f _ (df_rows d)))
  | TSeries s => VSeries (mkSeries (f _ (s_index s)) (f _ (s_values s)))
  end.

(** [data.head(n)] and [data.tail(n)] *)
Definition df_head (n : Z) (t : table) : pyval := map_rows (fun A => py_take n) t.
Definition df_tail (n : Z) (t : table) : pyval := map_rows (fun A => py_last n) t.

(** [df.columns.tolist()] *)
Definition columns_tolist (t : table) : outcome pyval :=
  match t with
  | TFrame d => Ok (VList (map VStr (df_columns d)))
  | TSeries _ => Raise (no_attribute "columns")
  end.

(** ** What the accessor does to the outside world *)

Inductive event : Type :=
| EvPrint (line : string)
| EvDisplay (label : option string) (result : pyval)
| EvHist (data : table) (kw : kwargs)
| EvSupTitle (title : string)
| EvInfo (data : table) (kw : kwargs)
| EvPlot (data : table) (kw : kwargs)
| EvToExcel (data : table) (path : string)
| EvToCsv (data : table) (path : string)
| EvToParquet (data : table) (path : string).

(** ** The modules the accessor imports

    [options.py], [timer.py], [utils.py] and the pandas option registry are
    not part of [DataFrameVet.py]; the accessor is verified for whatever they
    are.  [io_error] says which calls into the plotting and export layers of
    the host fail, and with what. *)
Class Host : Type := {
  registry : Type;
  timer_state : Type;
  _select_options : registry -> string -> list string;
  pd_set_option : string -> pyval -> registry -> outcome registry;
  _initialize_format_options : registry -> registry;
  _filter_emojis : registry -> string -> string;
  _format_fail_message : registry -> string -> string;
  _format_success_message : registry -> string -> string;
  _lambda_to_string : pycallable -> string;
  timer_start_timer : bool -> timer_state -> timer_state * list string;
  timer_print_time_elapsed :
    string -> string -> registry -> timer_state -> outcome (list string);
  py_eval : string -> heap -> pyval -> outcome pyval * heap;
  df_method : string -> kwargs -> table -> outcome pyval;
  host_str : pyval -> string;
  io_error : event -> option exn;
  (** pandas registers an option under a dotted identifier only
      ([register_option] refuses any other key), so the keys it selects
      are texts that [repr] shows as they are. *)
  select_options_keys :
    forall (r : registry) (pat : string),
      forallb kept_text (_select_options r pat) = true
}.

Section Accessor.
Context `{Host}.

Record world : Type := mkWorld {
  w_heap : heap;
  w_options : registry;
  w_timer : timer_state;
  w_out : list event
}.

(** Computations of the accessor: they read and extend the world, and
    return a value or raise. *)
Definition M (A : Type) : Type := world -> outcome A * world.

Definition ret {A : Type} (a : A) : M A := fun w => (Ok a, w).

Definition bind {A B : Type} (m : M A) (k : A -> M B) : M B :=
  fun w => match m w with
           | (Ok a, w') => k a w'
           | (Raise e, w') => (Raise e, w')
           end.

Definition raise {A : Type} (e : exn) : M A := fun w => (Raise e, w).

Definition lift {A : Type} (o : outcome A) : M A := fun w => (o, w).

Definition emit (ev : event) : M unit :=
  fun w => (Ok tt, mkWorld (w_heap w) (w_options w) (w_timer w)
                           (w_out w ++ [ev])).

Definition set_heap (h : heap) (w : world) : world :=
  mkWorld h (w_options w) (w_timer w) (w_out w).

(** User code at work: it returns or raises, and leaves its heap. *)
Definition on_heap {A : Type} (f : heap -> outcome A * heap) : M A :=
  fun w => (fst (f (w_heap w)), set_heap (snd (f (w_heap w))) w).

Definition get_heap : M heap := fun w => (Ok (w_heap w), w).
Definition get_options : M registry := fun w => (Ok (w_options w), w).
Definition put_options (r : registry) : M unit :=
  fun w => (Ok tt, mkWorld (w_heap w) r (w_timer w) (w_out w)).
Definition get_timer : M timer_state := fun w => (Ok (w_timer w), w).
Definition put_timer (t : timer_state) : M unit :=
  fun w => (Ok tt, mkWorld (w_heap w) (w_options w) t (w_out w)).

End Accessor.

Declare Scope py_scope.
Delimit Scope py_scope with py.
Notation "x <- m ;; k" := (bind m (fun x => k))
  (at level 100, m at next level, right associativity) : py_scope.
Notation "m ;;; k" := (bind m (fun _ => k))
  (at level 100, right associativity) : py_scope.

Section Helpers.
Context `{Host}.
Local Open Scope py_scope.

(** [print(s)] *)
Definition py_print (s : string) : M unit := emit (EvPrint s).

Fixpoint print_lines (ls : list string) : M unit :=
  match ls with
  | [] => ret tt
  | l :: rest => py_print l ;;; print_lines rest
  end.

(** A call into the plotting or export layer: it is made, and may fail. *)
Definition host_io (ev : event) : M unit :=
  emit ev ;;;
  match io_error ev with
  | Some e => raise e
  | None => ret tt
  end.

(** [f(v)] for a callable [f]. *)
Definition call (f : pycallable) (v : pyval) : M pyval :=
  on_heap (fun h => cl_call f h v).

(** [v.name(...)] for a method of pandas objects given as a function of the
    table; anything else has no such attribute. *)
Definition on_table (name : string) (f : table -> outcome pyval)
  : pycallable :=
  reader (fun h v => match as_table h v with
                     | Some t => f t
                     | None => Raise (no_attribute name)
                     end) name.

(** [str(v)] as [print] and f-strings use it. *)
Definition py_str (v : pyval) : string :=
  match v with
  | VNone => "None"
  | VBool true => "True"
  | VBool false => "False"
  | VInt z => str_of_Z z
  | VStr s => s
  | _ => host_str v
  end.

(** [_filter_emojis] applied to a label that may be [None]. *)
Definition filter_label (r : registry) (name : option string) : option string :=
  option_map (_filter_emojis r) name.

(** Modelled from the spec: [_modify_data] of [run_checks.py], which is not
    in the sources.  Section 4.1: if a subset is provided, narrow the data to
    those columns first (a missing column fails with the host's [KeyError]),
    then apply the transform; nothing is printed, and the helper itself
    mutates nothing: what the transform does to the data is the
    transform's.
    "Provided" is read as the accessor itself reads it in [assert_data]:
    a truthy [subset]. *)
Definition _modify_data (data : pyval) (fn : pycallable) (subset : subset_sel)
  : M pyval :=
  h <- get_heap ;;
  narrowed <- (if subset_truthy subset then lift (getitem h data subset)
               else ret data) ;;
  call fn narrowed.

(** Modelled from the spec: [_check_data] of [run_checks.py], which is not
    in the sources.  Section 4.2: resolve the data through [_modify_data],
    apply the check function if one is given, and display the result under
    the check name, filtered for decorative symbols. *)
Definition _check_data (data : pyval) (check_fn : option pycallable)
    (modify_fn : pycallable) (subset : subset_sel) (check_name : option string)
  : M unit :=
  derived <- _modify_data data modify_fn subset ;;
  result <- match check_fn with
            | Some f => call f derived
            | None => ret derived
            end ;;
  r <- get_options ;;
  emit (EvDisplay (filter_label r check_name) result).

End Helpers.

(** ** The accessor: [class DataFrameVet] *)

(** The [condition] argument of [assert_data]: a callable, or any other
    value (a [str] among them). *)
Inductive condition_arg : Type :=
| CondCallable (f : pycallable)
| CondValue (v : pyval).

(** [type(v)] as an f-string shows it. *)
Definition type_repr (v : pyval) : string :=
  "<class '" +:+
  match v with
  | VNone => "NoneType"
  | VBool _ => "bool"
  | VInt _ => "int"
  | VStr _ => "str"
  | VList _ => "list"
  | VTuple _ => "tuple"
  | VObj _ | VFrame _ => "pandas.core.frame.DataFrame"
  | VSeries _ => "pandas.core.series.Series"
  | VOpaque tag _ => tag
  end +:+ "'>".

(** [arg if arg.startswith("vet.") else "vet." + arg] *)
Definition qualified (arg : string) : string :=
  if startswith arg "vet." then arg else "vet." +:+ arg.

Module DataFrameVet.
Section Methods.
Context `{Host}.
Local Open Scope py_scope.

(** [__init__]: the accessor keeps a reference to the DataFrame. *)
Record accessor : Type := __init__ { _obj : loc }.

Variable self : accessor.

(** [return self._obj] *)
Definition return_obj : M pyval := ret (VObj (_obj self)).

(** The body of the loop of [set_format], for one keyword argument. *)
Definition set_format_arg (arg : string) (value : pyval) : M unit :=
  let vet_option := qualified arg in
  r <- get_options ;;
  if bool_decide (vet_option ∈ _select_options r "vet") then
    r' <- lift (pd_set_option vet_option value r) ;;
    put_options r'
  else
    raise (Exn AttributeError
             ("No Pandas Vet option for " +:+ vet_option +:+
              ". Available options: " +:+
              repr_str_list (_select_options r "vet"))).

Fixpoint set_format_loop (kw : kwargs) : M unit :=
  match kw with
  | [] => ret tt
  | (arg, value) :: rest => set_format_arg arg value ;;; set_format_loop rest
  end.

Definition set_format (kw : kwargs) : M pyval :=
  set_format_loop kw ;;; return_obj.

Definition reset_format : M pyval :=
  r <- get_options ;;
  put_options (_initialize_format_options r) ;;;
  return_obj.

Definition default_pass_message : string := " ✔️ Assertion passed ".
Definition default_fail_message : string := " ㄨ Assertion failed ".

(** [exception_class=DataError], the default. *)
Definition default_exception_class : exn_class := DataError.

(** Line 40: [self._obj[subset] if subset else self._obj] *)
Definition assert_subject (subset : subset_sel) : M pyval :=
  if subset_truthy subset then
    h <- get_heap ;; lift (getitem h (VObj (_obj self)) subset)
  else ret (VObj (_obj self)).

(** Lines 41-47: the value of the condition and its text. *)
Definition assert_evaluate (condition : condition_arg) (data : pyval)
  : M (pyval * string) :=
  match condition with
  | CondCallable f =>
      result <- call f data ;;
      ret (result, _lambda_to_string f)
  | CondValue (VStr s) =>
      result <- on_heap (fun h => py_eval s h data) ;;
      ret (result, s)
  | CondValue v =>
      raise (Exn TypeError
               ("Argument `condition` is of unexpected type " +:+ type_repr v))
  end.

Definition assert_data (condition : condition_arg) (subset : subset_sel)
    (exception_class : exn_class) (pass_message fail_message : string)
    (raise_exception verbose : bool) : M pyval :=
  data <- assert_subject subset ;;
  rc <- assert_evaluate condition data ;;
  let '(result, condition_str) := rc in
  truth <- lift (py_bool result) ;;
  (if negb truth then
     if raise_exception then
       raise (Exn exception_class (fail_message +:+ ": " +:+ condition_str))
     else
       r <- get_options ;;
       py_print (_format_fail_message r fail_message +:+ ": " +:+ condition_str)
   else ret tt) ;;;
  (if verbose then
     r <- get_options ;;
     py_print (_format_success_message r pass_message +:+ ": " +:+ condition_str)
   else ret tt) ;;;
  return_obj.

(** [lambda df: df.name(...)] with the keyword arguments passed on, for a
    method the host engine provides. *)
Definition host_method (name : string) (kw : kwargs) : pycallable :=
  on_table name (df_method name kw).

Definition describe (fn : pycallable) (subset : subset_sel)
    (check_name : option string) (kw : kwargs) : M pyval :=
  _check_data (VObj (_obj self)) (Some (host_method "describe" kw))
              fn subset check_name ;;;
  return_obj.

Definition columns (fn : pycallable) (subset : subset_sel)
    (check_name : option string) : M pyval :=
  _check_data (VObj (_obj self)) (Some (on_table "columns" columns_tolist))
              fn subset check_name ;;;
  return_obj.

Definition dtypes (fn : pycallable) (subset : subset_sel)
    (check_name : option string) : M pyval :=
  _check_data (VObj (_obj self)) (Some (host_method "dtypes" []))
              fn subset check_name ;;;
  return_obj.

Definition evaluate (fn : pycallable) (subset : subset_sel)
    (check_name : option string) : M pyval :=
  _check_data (VObj (_obj self)) None fn subset check_name ;;;
  return_obj.

Definition head (n : Z) (fn : pycallable) (subset : subset_sel)
    (check_name : option string) : M pyval :=
  _check_data (VObj (_obj self))
              (Some (on_table "head" (fun t => Ok (df_head n t))))
              fn subset
              (if str_truthy check_name then check_name
               else Some ("⬆️ First " +:+ str_of_Z n +:+ " rows")) ;;;
  return_obj.

(** [data.name(...)], a call into the plotting or export layer; [mk] gives
    the call made on a table that has the method. *)
Definition method_io (name : string) (mk : table -> option event)
    (data : pyval) : M unit :=
  h <- get_heap ;;
  match as_table h data with
  | Some t => match mk t with
              | Some ev => host_io ev
              | None => raise (no_attribute name)
              end
  | None => raise (no_attribute name)
  end.

Definition hist (fn : pycallable) (subset : subset_sel)
    (check_name : option string) (kw : kwargs) : M pyval :=
  data <- _modify_data (VObj (_obj self)) fn subset ;;
  method_io "hist" (fun t => Some (EvHist t kw)) data ;;;
  title <- (if str_truthy check_name then ret (default "" check_name)
            else n <- lift (len_subset subset) ;;
                 ret (if n =? 1 then "Distribution" else "Distributions")) ;;
  host_io (EvSupTitle title) ;;;
  return_obj.

Definition info (fn : pycallable) (subset : subset_sel)
    (check_name : option string) (kw : kwargs) : M pyval :=
  py_print "" ;;;
  r <- get_options ;;
  py_print (default "None" (filter_label r check_name)) ;;;
  data <- _modify_data (VObj (_obj self)) fn subset ;;
  method_io "info" (fun t => Some (EvInfo t kw)) data ;;;
  return_obj.

Definition memory_usage (fn : pycallable) (subset : subset_sel)
    (check_name : option string) (kw : kwargs) : M pyval :=
  _check_data (VObj (_obj self)) (Some (host_method "memory_usage" kw))
              fn subset check_name ;;;
  return_obj.

Definition ncols (fn : pycallable) (subset : subset_sel)
    (check_name : option string) : M pyval :=
  _check_data (VObj (_obj self))
              (Some (on_table "shape" (fun t => shape_at t 1)))
              fn subset check_name ;;;
  return_obj.

(** The default label of [ndups]. *)
Definition ndups_label (subset : subset_sel) (check_name : option string)
  : option string :=
  if str_truthy check_name then check_name
  else if subset_truthy subset
       then Some ("👯‍♂️ Rows with duplication in " +:+ str_of_subset subset)
       else Some "👯‍♂️ Duplicated rows".

Definition ndups (fn : pycallable) (subset : subset_sel)
    (check_name : option string) (kw : kwargs) : M pyval :=
  _check_data (VObj (_obj self))
              (Some (on_table "duplicated" (duplicated_sum kw)))
              fn subset (ndups_label subset check_name) ;;;
  return_obj.

(** Line 163: the null counts of the resolved data. *)
Definition na_counts_of (h : heap) (data : pyval) (by_column : bool)
  : outcome pyval :=
  match as_table h data with
  | Some (TFrame d) =>
      if negb by_column then Ok (isna_any_axis1_sum d)
      else Ok (isna_sum (TFrame d))
  | Some t => Ok (isna_sum t)
  | None => Raise (no_attribute "isna")
  end.

(** [isinstance(v, (pd.DataFrame, pd.Series))] *)
Definition is_pandas (h : heap) (v : pyval) : bool :=
  match as_table h v with
  | Some _ => true
  | None => false
  end.

Definition nnulls (fn : pycallable) (subset : subset_sel) (by_column : bool)
    (check_name : option string) : M pyval :=
  py_print "" ;;;
  data <- _modify_data (VObj (_obj self)) fn subset ;;
  h <- get_heap ;;
  na_counts <- lift (na_counts_of h data by_column) ;;
  r <- get_options ;;
  (if negb (str_truthy check_name) then
     if is_pandas h na_counts then
       _check_data na_counts None identity_fn SNone
         (Some (if subset_truthy subset
                then "👻 Rows with NaNs in " +:+ str_of_subset subset
                else "👻 Rows with NaNs"))
     else
       nrows <- lift (match as_table h data with
                      | Some t => shape_at t 0
                      | None => Raise (no_attribute "shape")
                      end) ;;
       py_print (_filter_emojis r
                   (if subset_truthy subset
                    then "👻 Rows with NaNs in " +:+ str_of_subset subset +:+ ": "
                    else "👻 Rows with NaNs: ")
                 +:+ py_str na_counts +:+ " out of " +:+ py_str nrows)
   else
     py_print (default "None" (filter_label r check_name) +:+ ": "
               +:+ py_str na_counts)) ;;;
  return_obj.

Definition nrows (fn : pycallable) (subset : subset_sel)
    (check_name : option string) : M pyval :=
  _check_data (VObj (_obj self))
              (Some (on_table "shape" (fun t => shape_at t 0)))
              fn subset check_name ;;;
  return_obj.

Definition nunique (column : subset_sel) (fn : pycallable)
    (check_name : option string) (kw : kwargs) : M pyval :=
  _check_data (VObj (_obj self)) (Some (host_method "nunique" kw))
              fn column
              (if str_truthy check_name then check_name
               else Some ("🌟 Unique values in " +:+ str_of_subset column)) ;;;
  return_obj.

(** [{**kwargs, "title": title} if "title" not in kwargs else kwargs] *)
Definition with_title (kw : kwargs) (title : pyval) : kwargs :=
  if existsb (fun kv => String.eqb (fst kv) "title") kw then kw
  else (kw ++ [("title", title)])%list.

Definition plot (fn : pycallable) (subset : subset_sel)
    (check_name : option string) (kw : kwargs) : M pyval :=
  data <- _modify_data (VObj (_obj self)) fn subset ;;
  r <- get_options ;;
  method_io "plot"
    (fun t => Some (EvPlot t (with_title kw
                 (match filter_label r check_name with
                  | Some s => VStr s
                  | None => VNone
                  end))))
    data ;;;
  return_obj.

Definition print (text : option string) (fn : pycallable)
    (subset : subset_sel) (check_name : option string) (max_rows : Z)
  : M pyval :=
  _check_data (if str_truthy text then VStr (default "" text)
               else VObj (_obj self))
              (Some (if str_truthy text then identity_fn
                     else on_table "head" (fun t => Ok (df_head max_rows t))))
              fn subset check_name ;;;
  return_obj.

Definition shape (fn : pycallable) (subset : subset_sel)
    (check_name : option string) : M pyval :=
  _check_data (VObj (_obj self))
              (Some (on_table "shape"
                       (fun t => Ok (VTuple (map VInt (df_shape t))))))
              fn subset check_name ;;;
  return_obj.

Definition start_timer (verbose : bool) : M pyval :=
  t <- get_timer ;;
  put_timer (fst (timer_start_timer verbose t)) ;;;
  print_lines (snd (timer_start_timer verbose t)) ;;;
  return_obj.

Definition tail (n : Z) (fn : pycallable) (subset : subset_sel)
    (check_name : option string) : M pyval :=
  _check_data (VObj (_obj self))
              (Some (on_table "tail" (fun t => Ok (df_tail n t))))
              fn subset
              (if str_truthy check_name then check_name
               else Some ("⬇️ Last " +:+ str_of_Z n +:+ " rows")) ;;;
  return_obj.

Definition print_time_elapsed (check_name units : string) : M pyval :=
  r <- get_options ;;
  t <- get_timer ;;
  lines <- lift (timer_print_time_elapsed check_name units r t) ;;
  print_lines lines ;;;
  return_obj.

Definition unique (column : subset_sel) (fn : pycallable)
    (check_name : option string) : M pyval :=
  _check_data (VObj (_obj self)) (Some (host_method "unique().tolist" []))
              fn column
              (if str_truthy check_name then check_name
               else Some ("🌟 Unique values of " +:+ str_of_subset column)) ;;;
  return_obj.

(** [lambda df: df.value_counts(...).head(max_rows)] *)
Definition value_counts_head (kw : kwargs) (max_rows : Z) : pycallable :=
  reader
    (fun h v =>
       match as_table h v with
       | Some t =>
           outcome_bind (df_method "value_counts" kw t) (fun counts =>
             match as_table h counts with
             | Some c => Ok (df_head max_rows c)
             | None => Raise (no_attribute "head")
             end)
       | None => Raise (no_attribute "value_counts")
       end)
    "value_counts".

Definition value_counts (column : subset_sel) (max_rows : Z)
    (fn : pycallable) (check_name : option string) (kw : kwargs) : M pyval :=
  _check_data (VObj (_obj self)) (Some (value_counts_head kw max_rows))
              fn column
              (if str_truthy check_name then check_name
               else if negb (max_rows =? 0)
                    then Some ("🧮 Value counts, first " +:+ str_of_Z max_rows
                               +:+ " values")
                    else Some "🧮 Value counts") ;;;
  return_obj.

(** The text line 281 hands to [_filter_emojis]: it is not an f-string. *)
Definition wrote_file_text : string := "📦 Wrote file {path}".

(** [to_parquet] is a method of DataFrames only. *)
Definition to_parquet_call (path : string) (t : table) : option event :=
  match t with
  | TFrame _ => Some (EvToParquet t path)
  | TSeries _ => None
  end.

(** Lines 272-279: the encoder is chosen by the end of the path. *)
Definition write_dispatch (data : pyval) (path : string) : M unit :=
  if endswith path ".xls" || endswith path ".xlsx" then
    method_io "to_excel" (fun t => Some (EvToExcel t path)) data
  else if endswith path ".csv" then
    method_io "to_csv" (fun t => Some (EvToCsv t path)) data
  else if endswith path ".parquet" then
    method_io "to_parquet" (to_parquet_call path) data
  else
    raise (Exn AttributeError
             ("Can't write data to file. Unknown file extension in: "
              +:+ path +:+ ". ")).

Definition write (path : string) (fn : pycallable) (subset : subset_sel)
    (verbose : bool) : M pyval :=
  data <- _modify_data (VObj (_obj self)) fn subset ;;
  write_dispatch data path ;;;
  (if verbose then
     r <- get_options ;;
     py_print (_filter_emojis r wrote_file_text)
   else ret tt) ;;;
  return_obj.

End Methods.
End DataFrameVet.

(** ** The operations of the accessor, as one type

    One constructor per public method, carrying the arguments of the call. *)
Inductive operation : Type :=
| OpSetFormat (kw : kwargs)
| OpResetFormat
| OpAssertData (condition : condition_arg) (subset : subset_sel)
    (exception_class : exn_class) (pass_message fail_message : string)
    (raise_exception verbose : bool)
| OpDescribe (fn : pycallable) (subset : subset_sel)
    (check_name : option string) (kw : kwargs)
| OpColumns (fn : pycallable) (subset : subset_sel) (check_name : option string)
| OpDtypes (fn : pycallable) (subset : subset_sel) (check_name : option string)
| OpEvaluate (fn : pycallable) (subset : subset_sel) (check_name : option string)
| OpHead (n : Z) (fn : pycallable) (subset : subset_sel)
    (check_name : option string)
| OpHist (fn : pycallable) (subset : subset_sel) (check_name : option string)
    (kw : kwargs)
| OpInfo (fn : pycallable) (subset : subset_sel) (check_name : option string)
    (kw : kwargs)
| OpMemoryUsage (fn : pycallable) (subset : subset_sel)
    (check_name : option string) (kw : kwargs)
| OpNcols (fn : pycallable) (subset : subset_sel) (check_name : option string)
| OpNdups (fn : pycallable) (subset : subset_sel) (check_name : option string)
    (kw : kwargs)
| OpNnulls (fn : pycallable) (subset : subset_sel) (by_column : bool)
    (check_name : option string)
| OpNrows (fn : pycallable) (subset : subset_sel) (check_name : option string)
| OpNunique (column : subset_sel) (fn : pycallable)
    (check_name : option string) (kw : kwargs)
| OpPlot (fn : pycallable) (subset : subset_sel) (check_name : option string)
    (kw : kwargs)
| OpPrint (text : option string) (fn : pycallable) (subset : subset_sel)
    (check_name : option string) (max_rows : Z)
| OpShape (fn : pycallable) (subset : subset_sel) (check_name : option string)
| OpStartTimer (verbose : bool)
| OpTail (n : Z) (fn : pycallable) (subset : subset_sel)
    (check_name : option string)
| OpPrintTimeElapsed (check_name units : string)
| OpUnique (column : subset_sel) (fn : pycallable) (check_name : option string)
| OpValueCounts (column : subset_sel) (max_rows : Z) (fn : pycallable)
    (check_name : option string) (kw : kwargs)
| OpWrite (path : string) (fn : pycallable) (subset : subset_sel)
    (verbose : bool).

Section Run.
Context `{Host}.

(** [getattr(df.check, op)(...)] *)
Definition run (self : DataFrameVet.accessor) (op : operation) : M pyval :=
  match op with
  | OpSetFormat kw => DataFrameVet.set_format self kw
  | OpResetFormat => DataFrameVet.reset_format self
  | OpAssertData c s e p f r v => DataFrameVet.assert_data self c s e p f r v
  | OpDescribe fn s c kw => DataFrameVet.describe self fn s c kw
  | OpColumns fn s c => DataFrameVet.columns self fn s c
  | OpDtypes fn s c => DataFrameVet.dtypes self fn s c
  | OpEvaluate fn s c => DataFrameVet.evaluate self fn s c
  | OpHead n fn s c => DataFrameVet.head self n fn s c
  | OpHist fn s c kw => DataFrameVet.hist self fn s c kw
  | OpInfo fn s c kw => DataFrameVet.info self fn s c kw
  | OpMemoryUsage fn s c kw => DataFrameVet.memory_usage self fn s c kw
  | OpNcols fn s c => DataFrameVet.ncols self fn s c
  | OpNdups fn s c kw => DataFrameVet.ndups self fn s c kw
  | OpNnulls fn s b c => DataFrameVet.nnulls self fn s b c
  | OpNrows fn s c => DataFrameVet.nrows self fn s c
  | OpNunique col fn c kw => DataFrameVet.nunique self col fn c kw
  | OpPlot fn s c kw => DataFrameVet.plot self fn s c kw
  | OpPrint t fn s c m => DataFrameVet.print self t fn s c m
  | OpShape fn s c => DataFrameVet.shape self fn s c
  | OpStartTimer v => DataFrameVet.start_timer self v
  | OpTail n fn s c => DataFrameVet.tail self n fn s c
  | OpPrintTimeElapsed c u => DataFrameVet.print_time_elapsed self c u
  | OpUnique col fn c => DataFrameVet.unique self col fn c
  | OpValueCounts col m fn c kw => DataFrameVet.value_counts self col m fn c kw
  | OpWrite p fn s v => DataFrameVet.write self p fn s v
  end.

(** A computation leaves every object of the heap as it found it. *)
Definition frames_heap {A : Type} (m : M A) : Prop :=
  forall w, w_heap (snd (m w)) = w_heap w.

(** A computation leaves the whole world as it found it. *)
Definition reads_only {A : Type} (m : M A) : Prop :=
  forall w, snd (m w) = w.

(** Whenever a computation returns, it returns [v]. *)
Definition returns_only {A : Type} (m : M A) (v : A) : Prop :=
  forall w a, fst (m w) = Ok a -> a = v.

(** What [write] does once an encoder call [ev] has been chosen. *)
Definition after_encoder (self : DataFrameVet.accessor) (verbose : bool)
    (ev : event) (w : world) : outcome pyval * world :=
  match io_error ev with
  | Some e =>
      (Raise e, mkWorld (w_heap w) (w_options w) (w_timer w) (w_out w ++ [ev]))
  | None =>
      (Ok (VObj (DataFrameVet._obj self)),
       mkWorld (w_heap w) (w_options w) (w_timer w)
         (w_out w ++ ev ::
            (if verbose
             then [EvPrint (_filter_emojis (w_options w)
                              DataFrameVet.wrote_file_text)]
             else [])))
  end.

(** The user code of a call leaves every object of the heap as it found
    it: the callable, or the text of a string condition when evaluated. *)
Definition condition_keeps_heap (c : condition_arg) : Prop :=
  match c with
  | CondCallable f => keeps_heap f
  | CondValue (VStr s) =>
      forall (h : heap) (v : pyval), snd (py_eval s h v) = h
  | CondValue _ => True
  end.

Definition op_keeps_heap (op : operation) : Prop :=
  match op with
  | OpSetFormat _ | OpResetFormat | OpStartTimer _
  | OpPrintTimeElapsed _ _ => True
  | OpAssertData c _ _ _ _ _ _ => condition_keeps_heap c
  | OpDescribe fn _ _ _ | OpColumns fn _ _ | OpDtypes fn _ _
  | OpEvaluate fn _ _ | OpHead _ fn _ _ | OpHist fn _ _ _
  | OpInfo fn _ _ _ | OpMemoryUsage fn _ _ _ | OpNcols fn _ _
  | OpNdups fn _ _ _ | OpNnulls fn _ _ _ | OpNrows fn _ _
  | OpNunique _ fn _ _ | OpPlot fn _ _ _ | OpPrint _ fn _ _ _
  | OpShape fn _ _ | OpTail _ fn _ _ | OpUnique _ fn _
  | OpValueCounts _ _ fn _ _ | OpWrite _ fn _ _ => keeps_heap fn
  end.

(** [df.check.op1(...).check.op2(...)...]: line 11 registers the class as
    the [check] accessor of DataFrames, so each link builds the accessor of
    the value the link before returned; only a DataFrame has [check]. *)
Fixpoint chain (self : DataFrameVet.accessor) (ops : list operation)
  : M pyval :=
  match ops with
  | [] => ret (VObj (DataFrameVet._obj self))
  | op :: rest =>
      bind (run self op) (fun v =>
        match v with
        | VObj l => chain (DataFrameVet.__init__ l) rest
        | _ => raise (no_attribute "check")
        end)
  end.

(** The operations one after the other, all on the same accessor. *)
Fixpoint run_all (self : DataFrameVet.accessor) (ops : list operation)
  : M pyval :=
  match ops with
  | [] => ret (VObj (DataFrameVet._obj self))
  | op :: rest => bind (run self op) (fun _ => run_all self rest)
  end.

End Run.

(** ** What the spec says the reports are

    These follow the words of the spec, not the code: the number of nulls of
    a column, the number of rows with a null, and the rows that repeat an
    earlier row. *)

Definition spec_null_count_of_column (d : DataFrame) (j : nat) : Z :=
  Z.of_nat (length (List.filter (fun r => bool_decide (r !! j = Some CNull))
                                (df_rows d))).

Definition spec_rows_with_any_null (d : DataFrame) : Z :=
  Z.of_nat (length (List.filter (fun r => bool_decide (CNull ∈ r))
                                (df_rows d))).





(** ** A concrete host and concrete tables, to run the accessor on *)

(** The options a demonstration registry holds, and their values. *)
Definition demo_keys : list string := ["vet.precision"; "vet.use_emojis"].

Definition demo_set_option (k : string) (v : pyval) (r : pyval * pyval)
  : pyval * pyval :=
  if String.eqb k "vet.precision" then (v, snd r)
  else if String.eqb k "vet.use_emojis" then (fst r, v)
  else r.

Definition demo_options : pyval * pyval := (VInt 2, VBool true).

Definition demo_host : Host := {|
  registry := pyval * pyval;
  timer_state := option Z;
  _select_options := fun _ _ => demo_keys;
  pd_set_option := fun k v r => Ok (demo_set_option k v r);
  _initialize_format_options := fun _ => demo_options;
  _filter_emojis := fun _ s => s;
  _format_fail_message := fun _ s => s;
  _format_success_message := fun _ s => s;
  _lambda_to_string := cl_source;
  timer_start_timer := fun _ _ => (Some 0, []);
  timer_print_time_elapsed := fun name _ _ _ => Ok [name];
  py_eval := fun _ h _ => (Ok (VBool true), h);
  df_method := fun name _ _ => Ok (VOpaque name []);
  host_str := fun _ => "<object>";
  io_error := fun _ => None;
  select_options_keys := fun _ _ => eq_refl
|}.

(** Columns [a, b], rows [(1, None), (2, 2)]. *)
Definition nulls_table : DataFrame :=
  mkDataFrame ["a"; "b"] [[CInt 1; CNull]; [CInt 2; CInt 2]].

(** Rows [(1, 1), (1, 1), (2, 2)]. *)
Definition dups_table : DataFrame :=
  mkDataFrame ["a"; "b"] [[CInt 1; CInt 1]; [CInt 1; CInt 1]; [CInt 2; CInt 2]].

(** A table with a column and no rows. *)
Definition empty_table : DataFrame := mkDataFrame ["a"] [].

(** The accessor of the DataFrame at location 0. *)
Definition df0 : DataFrameVet.accessor := DataFrameVet.__init__ 0%nat.

Definition demo_world (d : DataFrame) : @world demo_host :=
  @mkWorld demo_host (fun _ => d) demo_options None [].

(** [lambda d: len(d) > 0] *)
Definition has_rows : pycallable :=
  reader
    (fun h v => match as_table h v with
                | Some t => Ok (VBool (0 <? Z.of_nat (length (table_rows t))))
                | None => Raise (Exn TypeError "object has no len()")
                end)
    "lambda d: len(d) > 0".

(** The heap with the object at [l] replaced. *)
Definition heap_update (h : heap) (l : loc) (d : DataFrame) : heap :=
  fun l' => if Nat.eqb l' l then d else h l'.

(** [lambda d: d.drop(d.index, inplace=True) is None]: it empties the
    object it is handed, in place, and is true. *)
Definition drop_rows_in_place : pycallable :=
  mkCallable
    (fun h v =>
       match v with
       | VObj l =>
           (Ok (VBool true),
            heap_update h l (mkDataFrame (df_columns (h l)) []))
       | _ => (Ok (VBool true), h)
       end)
    "lambda d: d.drop(d.index, inplace=True) is None".

(** The events of a run, and its result. *)
Definition output_of `{Host} {A : Type} (m : M A) (w : world) : list event :=
  w_out (snd (m w)).
Definition result_of `{Host} {A : Type} (m : M A) (w : world) : outcome A :=
  fst (m w).

(** The heap a run leaves. *)
Definition heap_after `{Host} {A : Type} (m : M A) (w : world) : heap :=
  w_heap (snd (m w)).

(** A text filter that only ever removes characters, as stripping the
    decorative symbols does. *)
Definition only_deletes (f : string -> string) : Prop :=
  forall s : string,
    sublist (list_ascii_of_string (f s)) (list_ascii_of_string s).

(** ** Laws of the computations *)

Section MonadLaws.
Context `{Host}.
Local Open Scope py_scope.

Lemma set_heap_same (w : world) : set_heap (w_heap w) w = w.
Proof. destruct w. reflexivity. Qed.

Lemma frames_ret {A : Type} (a : A) : frames_heap (ret a).
Proof. intros w. reflexivity. Qed.

Lemma frames_raise {A : Type} (e : exn) : frames_heap (@raise _ A e).
Proof. intros w. reflexivity. Qed.

Lemma frames_lift {A : Type} (o : outcome A) : frames_heap (lift o).
Proof. intros w. reflexivity. Qed.

Lemma frames_emit (ev : event) : frames_heap (emit ev).
Proof. intros w. reflexivity. Qed.

Lemma frames_get_heap : frames_heap get_heap.
Proof. intros w. reflexivity. Qed.

Lemma frames_get_options : frames_heap get_options.
Proof. intros w. reflexivity. Qed.

Lemma frames_put_options (r : registry) : frames_heap (put_options r).
Proof. intros w. reflexivity. Qed.

Lemma frames_get_timer : frames_heap get_timer.
Proof. intros w. reflexivity. Qed.

Lemma frames_put_timer (t : timer_state) : frames_heap (put_timer t).
Proof. intros w. reflexivity. Qed.

Lemma frames_bind {A B : Type} (m : M A) (k : A -> M B) :
  frames_heap m -> (forall a, frames_heap (k a)) -> frames_heap (bind m k).
Proof.
  intros Hm Hk w. unfold bind. specialize (Hm w).
  destruct (m w) as [[a|e] w1]; simpl in *.
  - rewrite (Hk a w1). exact Hm.
  - exact Hm.
Qed.

(** User code that keeps the heap frames it. *)
Lemma frames_on_heap {A : Type} (f : heap -> outcome A * heap) :
  (forall h, snd (f h) = h) -> frames_heap (on_heap f).
Proof. intros Hf w. unfold on_heap. simpl. apply Hf. Qed.

Lemma frames_call (f : pycallable) (v : pyval) :
  keeps_heap f -> frames_heap (call f v).
Proof. intros Hf. apply frames_on_heap. intros h. apply Hf. Qed.

Lemma keeps_heap_reader (f : heap -> pyval -> outcome pyval) (source : string) :
  keeps_heap (reader f source).
Proof. intros h v. reflexivity. Qed.

Lemma keeps_heap_identity : keeps_heap identity_fn.
Proof. apply keeps_heap_reader. Qed.

Lemma keeps_heap_on_table (name : string) (f : table -> outcome pyval) :
  keeps_heap (on_table name f).
Proof. apply keeps_heap_reader. Qed.

Lemma keeps_heap_if (c : bool) (f g : pycallable) :
  keeps_heap f -> keeps_heap g -> keeps_heap (if c then f else g).
Proof. destruct c; auto. Qed.

Lemma returns_ret {A : Type} (a : A) : returns_only (ret a) a.
Proof. intros w b Hb. simpl in Hb. congruence. Qed.

Lemma returns_bind {A B : Type} (m : M A) (k : A -> M B) (v : B) :
  (forall a, returns_only (k a) v) -> returns_only (bind m k) v.
Proof.
  intros Hk w b. unfold bind.
  destruct (m w) as [[a|e] w1]; simpl.
  - apply Hk.
  - discriminate.
Qed.

Lemma reads_ret {A : Type} (a : A) : reads_only (ret a).
Proof. intros w. reflexivity. Qed.

Lemma reads_lift {A : Type} (o : outcome A) : reads_only (lift o).
Proof. intros w. reflexivity. Qed.

Lemma reads_get_heap : reads_only get_heap.
Proof. intros w. reflexivity. Qed.

Lemma reads_bind {A B : Type} (m : M A) (k : A -> M B) :
  reads_only m -> (forall a, reads_only (k a)) -> reads_only (bind m k).
Proof.
  intros Hm Hk w. unfold bind. specialize (Hm w).
  destruct (m w) as [[a|e] w1]; simpl in *; subst; [apply Hk | reflexivity].
Qed.

Lemma run_of_reads {A : Type} (m : M A) (w : world) (a : A) :
  reads_only m -> result_of m w = Ok a -> m w = (Ok a, w).
Proof.
  intros Hm Ha. unfold result_of in Ha. specialize (Hm w).
  destruct (m w) as [o w1]; simpl in *. congruence.
Qed.

Lemma frames_print_lines (ls : list string) : frames_heap (print_lines ls).
Proof.
  induction ls as [|l ls IH]; simpl.
  - apply frames_ret.
  - apply frames_bind; [apply frames_emit | intros _; exact IH].
Qed.

(** Resolving the data touches the heap only, and depends on nothing else:
    in any world with the same heap it has the same outcome and leaves the
    same heap. *)
Lemma modify_data_shape (data : pyval) (fn : pycallable) (subset : subset_sel)
    (h : heap) :
  exists (o : outcome pyval) (h1 : heap),
    forall w : world,
      w_heap w = h -> _modify_data data fn subset w = (o, set_heap h1 w).
Proof.
  unfold _modify_data, bind, get_heap, call, on_heap, lift, ret.
  destruct (subset_truthy subset).
  - destruct (getitem h data subset) as [narrowed|e] eqn:E.
    + exists (fst (cl_call fn h narrowed)), (snd (cl_call fn h narrowed)).
      intros w <-. simpl. rewrite E. reflexivity.
    + exists (Raise e), h. intros w <-. simpl. rewrite E.
      now rewrite set_heap_same.
  - exists (fst (cl_call fn h data)), (snd (cl_call fn h data)).
    intros w <-. reflexivity.
Qed.

(** What the resolution did in one world it does in every world with the
    same heap. *)
Lemma modify_data_any (data : pyval) (fn : pycallable) (subset : subset_sel)
    (w w' : world) (o : outcome pyval) (h1 : heap) :
  _modify_data data fn subset w = (o, set_heap h1 w) ->
  w_heap w' = w_heap w ->
  _modify_data data fn subset w' = (o, set_heap h1 w').
Proof.
  intros Hw Hh.
  destruct (modify_data_shape data fn subset (w_heap w)) as (o0 & h0 & Hall).
  rewrite (Hall w eq_refl) in Hw. injection Hw as -> Hw. subst h0.
  apply Hall. exact Hh.
Qed.

Lemma frames_modify_data (data : pyval) (fn : pycallable) (subset : subset_sel) :
  keeps_heap fn -> frames_heap (_modify_data data fn subset).
Proof.
  intros Hfn. unfold _modify_data.
  apply frames_bind; [apply frames_get_heap | intros h].
  apply frames_bind; [| intros a; now apply frames_call].
  destruct (subset_truthy subset); [apply frames_lift | apply frames_ret].
Qed.

End MonadLaws.

Create HintDb frames discriminated.
#[export] Hint Resolve frames_ret frames_raise frames_lift frames_emit
  frames_get_heap frames_get_options frames_put_options frames_get_timer
  frames_put_timer frames_print_lines frames_call frames_modify_data
  keeps_heap_reader keeps_heap_identity keeps_heap_on_table keeps_heap_if
  : frames.

(** One step of a frame proof: split a bind, pick a branch, or close a
    leaf with the laws above. *)
Ltac frames_step :=
  match goal with
  | |- frames_heap (bind _ _) => apply frames_bind; [| intros ?]
  | |- frames_heap (if ?b then _ else _) => destruct b
  | |- frames_heap (match ?x with _ => _ end) => destruct x
  | |- frames_heap _ => solve [auto with frames]
  end.

Ltac frames := repeat frames_step.

Ltac returns_obj :=
  repeat (apply returns_bind; intros ?);
  repeat match goal with
         | |- returns_only (match ?x with _ => _ end) _ => destruct x
         end;
  repeat (apply returns_bind; intros ?);
  apply returns_ret.

(** ** Every operation hands back the object it was given *)

Section PassThrough.
Context `{Host}.
Local Open Scope py_scope.

Lemma frames_check_data (data : pyval) (check_fn : pycallable)
    (modify_fn : pycallable) (subset : subset_sel) (check_name : option string) :
  keeps_heap modify_fn -> keeps_heap check_fn ->
  frames_heap (_check_data data (Some check_fn) modify_fn subset check_name).
Proof. intros Hm Hc. unfold _check_data. frames. Qed.

Lemma frames_check_data_none (data : pyval) (modify_fn : pycallable)
    (subset : subset_sel) (check_name : option string) :
  keeps_heap modify_fn ->
  frames_heap (_check_data data None modify_fn subset check_name).
Proof. intros Hm. unfold _check_data. frames. Qed.

Lemma frames_host_io (ev : event) : frames_heap (host_io ev).
Proof. unfold host_io. frames. Qed.

Lemma frames_method_io (name : string) (mk : table -> option event)
    (data : pyval) :
  frames_heap (DataFrameVet.method_io name mk data).
Proof.
  unfold DataFrameVet.method_io.
  apply frames_bind; [apply frames_get_heap | intros h].
  destruct (as_table h data) as [t|]; [| apply frames_raise].
  destruct (mk t); [apply frames_host_io | apply frames_raise].
Qed.

Lemma frames_set_format_loop (self : DataFrameVet.accessor) (kw : kwargs) :
  frames_heap (DataFrameVet.set_format_loop kw).
Proof.
  induction kw as [|[arg value] kw IH]; simpl.
  - apply frames_ret.
  - apply frames_bind; [| intros _; exact IH].
    unfold DataFrameVet.set_format_arg. frames.
Qed.

Lemma frames_assert_evaluate (condition : condition_arg) (data : pyval) :
  condition_keeps_heap condition ->
  frames_heap (DataFrameVet.assert_evaluate condition data).
Proof.
  destruct condition as [f|v]; simpl; intros Hk.
  - frames.
  - destruct v; try apply frames_raise.
    apply frames_bind; [| intros r; apply frames_ret].
    apply frames_on_heap. intros h. apply Hk.
Qed.

Lemma keeps_heap_host_method (name : string) (kw : kwargs) :
  keeps_heap (DataFrameVet.host_method name kw).
Proof. apply keeps_heap_on_table. Qed.

Lemma keeps_heap_value_counts_head (kw : kwargs) (max_rows : Z) :
  keeps_heap (DataFrameVet.value_counts_head kw max_rows).
Proof. apply keeps_heap_reader. Qed.

End PassThrough.

#[export] Hint Resolve frames_check_data frames_check_data_none
  frames_host_io frames_method_io frames_set_format_loop
  frames_assert_evaluate keeps_heap_host_method keeps_heap_value_counts_head
  : frames.

Section PassThroughRun.
Context `{Host}.
Local Open Scope py_scope.

(** With user code that keeps the heap, so does the operation. *)
Lemma run_frames_heap (self : DataFrameVet.accessor) (op : operation) :
  op_keeps_heap op -> frames_heap (run self op).
Proof.
  destruct op; simpl; intros Hk;
    unfold DataFrameVet.set_format, DataFrameVet.reset_format,
      DataFrameVet.assert_data, DataFrameVet.assert_subject,
      DataFrameVet.describe,
      DataFrameVet.columns, DataFrameVet.dtypes, DataFrameVet.evaluate,
      DataFrameVet.head, DataFrameVet.hist, DataFrameVet.info,
      DataFrameVet.memory_usage, DataFrameVet.ncols, DataFrameVet.ndups,
      DataFrameVet.nnulls, DataFrameVet.nrows, DataFrameVet.nunique,
      DataFrameVet.plot, DataFrameVet.print, DataFrameVet.shape,
      DataFrameVet.start_timer, DataFrameVet.tail,
      DataFrameVet.print_time_elapsed, DataFrameVet.unique,
      DataFrameVet.value_counts, DataFrameVet.write,
      DataFrameVet.write_dispatch, DataFrameVet.return_obj, py_print;
    frames.
Qed.

Lemma run_returns_obj (self : DataFrameVet.accessor) (op : operation) :
  returns_only (run self op) (VObj (DataFrameVet._obj self)).
Proof.
  destruct op; simpl;
    unfold DataFrameVet.set_format, DataFrameVet.reset_format,
      DataFrameVet.assert_data, DataFrameVet.describe,
      DataFrameVet.columns, DataFrameVet.dtypes, DataFrameVet.evaluate,
      DataFrameVet.head, DataFrameVet.hist, DataFrameVet.info,
      DataFrameVet.memory_usage, DataFrameVet.ncols, DataFrameVet.ndups,
      DataFrameVet.nnulls, DataFrameVet.nrows, DataFrameVet.nunique,
      DataFrameVet.plot, DataFrameVet.print, DataFrameVet.shape,
      DataFrameVet.start_timer, DataFrameVet.tail,
      DataFrameVet.print_time_elapsed, DataFrameVet.unique,
      DataFrameVet.value_counts, DataFrameVet.write,
      DataFrameVet.return_obj;
    returns_obj.
Qed.

End PassThroughRun.

Section Identity.
Context `{Host}.
Local Open Scope py_scope.

Lemma print_lines_ok (ls : list string) (w : world) :
  fst (print_lines ls w) = Ok tt.
Proof.
  revert w. induction ls as [|l ls IH]; intros w; simpl; [reflexivity|].
  unfold bind, py_print, emit. apply IH.
Qed.

(** C1, as the code has it.  Whatever operation of the accessor is called,
    on whatever dataset: if the call returns, the value returned is the very
    object the accessor was built on ([self._obj], the same reference, not a
    copy).  The accessor itself never writes to an object: when the user code
    of the call (the transform, a callable condition, the text of a string
    condition as evaluated) leaves the heap as it finds it, then after the
    call, raising or not, every object of the heap, the dataset among them,
    has the columns and rows it had before.  The calls that cannot fail
    ([reset_format], [start_timer], [evaluate] with its defaults) do
    return. *)
Theorem accessor_returns_the_dataset_untouched
    (self : DataFrameVet.accessor) (op : operation) (w : world) :
  (result_of (run self op) w = Ok (VObj (DataFrameVet._obj self)) \/
   exists e : exn, result_of (run self op) w = Raise e) /\
  (op_keeps_heap op -> w_heap (snd (run self op w)) = w_heap w) /\
  (op_keeps_heap op ->
   w_heap (snd (run self op w)) (DataFrameVet._obj self)
     = w_heap w (DataFrameVet._obj self)) /\
  result_of (run self OpResetFormat) w = Ok (VObj (DataFrameVet._obj self)) /\
  (forall verbose : bool,
     result_of (run self (OpStartTimer verbose)) w
       = Ok (VObj (DataFrameVet._obj self))) /\
  (forall check_name : option string,
     result_of (run self (OpEvaluate identity_fn SNone check_name)) w
       = Ok (VObj (DataFrameVet._obj self))).
Proof.
  split; [| split; [| split; [| split; [| split]]]].
  - unfold result_of.
    destruct (fst (run self op w)) as [v|e] eqn:E.
    + left. f_equal. exact (run_returns_obj self op w v E).
    + right. exists e. reflexivity.
  - intros Hk. now apply run_frames_heap.
  - intros Hk. rewrite (run_frames_heap self op Hk w). reflexivity.
  - reflexivity.
  - intros verbose. unfold result_of. simpl.
    unfold DataFrameVet.start_timer, bind, get_timer, put_timer.
    simpl.
    match goal with
    | |- context [print_lines ?ls ?w0] =>
        pose proof (print_lines_ok ls w0) as E;
        destruct (print_lines ls w0) as [[u|e] w1]
    end; simpl in *; [reflexivity | discriminate].
  - intros check_name. reflexivity.
Qed.

End Identity.

(** ** Strings *)

(** [+:+] does not unfold under [simpl]; these are its two equations. *)
Lemma str_app_nil_l (b : string) : "" +:+ b = b.
Proof. reflexivity. Qed.

Lemma str_app_cons (x : ascii) (a b : string) :
  String x a +:+ b = String x (a +:+ b).
Proof. reflexivity. Qed.

Lemma str_app_assoc (a b c : string) : (a +:+ b) +:+ c = a +:+ (b +:+ c).
Proof.
  induction a as [|x a IH]; [reflexivity|].
  rewrite !str_app_cons, IH. reflexivity.
Qed.

Lemma str_app_nil_r (a : string) : a +:+ "" = a.
Proof.
  induction a as [|x a IH]; [reflexivity|].
  rewrite str_app_cons, IH. reflexivity.
Qed.

Lemma str_contains_prefix (a b : string) : str_contains (a +:+ b) a.
Proof. exists "", b. reflexivity. Qed.

Lemma str_contains_suffix (a b : string) : str_contains (a +:+ b) b.
Proof. exists a, "". now rewrite str_app_nil_r. Qed.

Lemma str_contains_middle (a b c : string) : str_contains (a +:+ b +:+ c) b.
Proof. exists a, c. reflexivity. Qed.

Lemma endswith_refl (s : string) : endswith s s = true.
Proof.
  destruct s as [|x s]; [reflexivity|].
  change (endswith (String x s) (String x s))
    with (if String.eqb (String x s) (String x s) then true
          else endswith s (String x s)).
  now rewrite String.eqb_refl.
Qed.

Lemma endswith_cons (x : ascii) (s suf : string) :
  endswith (String x s) suf
  = if String.eqb (String x s) suf then true else endswith s suf.
Proof. reflexivity. Qed.

Lemma endswith_app (p suf : string) : endswith (p +:+ suf) suf = true.
Proof.
  induction p as [|x p IH].
  - apply endswith_refl.
  - rewrite str_app_cons, endswith_cons.
    destruct (String.eqb (String x (p +:+ suf)) suf); [reflexivity | exact IH].
Qed.

(** [endswith] is true exactly of the strings that end in the suffix. *)
Lemma endswith_spec (s suf : string) :
  endswith s suf = true <-> exists p : string, s = p +:+ suf.
Proof.
  split.
  - induction s as [|x s IH].
    + unfold endswith.
      destruct (String.eqb_spec "" suf) as [<-|]; [| discriminate].
      intros _. exists "". reflexivity.
    + rewrite endswith_cons.
      destruct (String.eqb_spec (String x s) suf) as [<-|].
      * intros _. exists "". reflexivity.
      * intros E. destruct (IH E) as [p ->]. exists (String x p). reflexivity.
  - intros [p ->]. apply endswith_app.
Qed.

Lemma list_ascii_of_string_app (a b : string) :
  list_ascii_of_string (a +:+ b)
  = (list_ascii_of_string a ++ list_ascii_of_string b)%list.
Proof.
  induction a as [|x a IH]; [reflexivity|].
  rewrite str_app_cons. simpl. now rewrite IH.
Qed.


(** ** [assert_data] *)

Section AssertData.
Context `{Host}.
Local Open Scope py_scope.

Lemma reads_assert_subject (self : DataFrameVet.accessor) (subset : subset_sel) :
  reads_only (DataFrameVet.assert_subject self subset).
Proof.
  unfold DataFrameVet.assert_subject.
  destruct (subset_truthy subset); [| apply reads_ret].
  apply reads_bind; [apply reads_get_heap | intros h; apply reads_lift].
Qed.

(** Evaluating the condition is the user's code at work: whatever it
    returns, the world it leaves differs from the one it found in the heap
    at most. *)
Lemma assert_evaluate_shape (condition : condition_arg) (data : pyval)
    (w : world) :
  exists h1 : heap,
    snd (DataFrameVet.assert_evaluate condition data w) = set_heap h1 w.
Proof.
  destruct condition as [f|v]; simpl.
  - unfold bind, call, on_heap. simpl.
    destruct (cl_call f (w_heap w) data) as [[r|e] h1]; simpl;
      exists h1; reflexivity.
  - destruct v; try (exists (w_heap w); simpl; now rewrite set_heap_same).
    unfold bind, on_heap. simpl.
    destruct (py_eval s (w_heap w) data) as [[r|e] h1]; simpl;
      exists h1; reflexivity.
Qed.

(** A condition that keeps the heap is evaluated without a trace. *)
Lemma frames_assert_evaluate_kept (condition : condition_arg) (data : pyval)
    (w : world) :
  condition_keeps_heap condition ->
  snd (DataFrameVet.assert_evaluate condition data w) = w.
Proof.
  intros Hk. destruct condition as [f|v]; simpl in *.
  - unfold bind, call, on_heap. simpl.
    specialize (Hk (w_heap w) data).
    destruct (cl_call f (w_heap w) data) as [[r|e] h1]; simpl in *; subst h1;
      apply set_heap_same.
  - destruct v; try reflexivity.
    unfold bind, on_heap. simpl.
    specialize (Hk (w_heap w) data).
    destruct (py_eval s (w_heap w) data) as [[r|e] h1]; simpl in *; subst h1;
      apply set_heap_same.
Qed.

(** C2.  When [assert_data] evaluates the condition to a falsy result:
    with [raise_exception] it raises [exception_class] (by default
    [DataError]) with the message [fail_message: condition text], which
    contains the fail message and the text of the condition, and prints
    nothing; without [raise_exception] it does not raise, prints the
    decorated fail message, and returns the original object, with every
    object of the heap as the evaluation of the condition left it, which is
    as it was before the call when the condition only reads.  The text is
    the source of a callable condition and the string itself of a string
    condition. *)
Theorem assert_data_falsy
    (self : DataFrameVet.accessor) (w : world) (condition : condition_arg)
    (subset : subset_sel) (exception_class : exn_class)
    (pass_message fail_message : string) (raise_exception verbose : bool)
    (data result : pyval) (condition_str : string)
    (Hdata : result_of (DataFrameVet.assert_subject self subset) w = Ok data)
    (Heval : result_of (DataFrameVet.assert_evaluate condition data) w
             = Ok (result, condition_str))
    (Hfalsy : py_bool result = Ok false) :
  let run_it := DataFrameVet.assert_data self condition subset exception_class
                  pass_message fail_message raise_exception verbose in
  let h1 := heap_after (DataFrameVet.assert_evaluate condition data) w in
  let message := fail_message +:+ ": " +:+ condition_str in
  let fail_line :=
    EvPrint (_format_fail_message (w_options w) fail_message +:+ ": "
             +:+ condition_str) in
  (raise_exception = true ->
     run_it w = (Raise (Exn exception_class message), set_heap h1 w) /\
     str_contains message fail_message /\
     str_contains message condition_str) /\
  (raise_exception = false ->
     result_of run_it w = Ok (VObj (DataFrameVet._obj self)) /\
     (exists rest : list event,
        output_of run_it w = (w_out w ++ fail_line :: rest)%list) /\
     heap_after run_it w = h1) /\
  DataFrameVet.default_exception_class = DataError /\
  (forall f, condition = CondCallable f -> condition_str = _lambda_to_string f) /\
  (forall s, condition = CondValue (VStr s) -> condition_str = s) /\
  (condition_keeps_heap condition -> h1 = w_heap w).
Proof.
  intros run_it h1 message fail_line.
  assert (Hkept : condition_keeps_heap condition -> h1 = w_heap w).
  { intros Hk. unfold h1, heap_after.
    now rewrite (frames_assert_evaluate_kept condition data w Hk). }
  pose proof (run_of_reads _ w data (reads_assert_subject self subset) Hdata)
    as Rdata.
  assert (Reval : DataFrameVet.assert_evaluate condition data w
                  = (Ok (result, condition_str), set_heap h1 w)).
  { unfold h1, heap_after. unfold result_of in Heval.
    destruct (assert_evaluate_shape condition data w) as [h2 Hs].
    destruct (DataFrameVet.assert_evaluate condition data w) as [o w2].
    simpl in *. subst. reflexivity. }
  clearbody h1.
  assert (Hrun : run_it w =
    if raise_exception
    then (Raise (Exn exception_class message), set_heap h1 w)
    else (Ok (VObj (DataFrameVet._obj self)),
          mkWorld h1 (w_options w) (w_timer w)
            (w_out w ++
             fail_line
             :: (if verbose
                 then [EvPrint (_format_success_message (w_options w)
                                  pass_message +:+ ": " +:+ condition_str)]
                 else [])))).
  { unfold run_it, DataFrameVet.assert_data, bind.
    rewrite Rdata, Reval. unfold lift. rewrite Hfalsy. simpl.
    destruct raise_exception; simpl; [reflexivity|].
    destruct verbose; simpl; unfold DataFrameVet.return_obj, ret; simpl;
      rewrite <- ?app_assoc; reflexivity. }
  split; [| split; [| split; [| split; [| split; [| exact Hkept]]]]].
  - intros ->. split; [exact Hrun | split].
    + apply str_contains_prefix.
    + unfold message. rewrite <- str_app_assoc. apply str_contains_suffix.
  - intros ->. unfold result_of, output_of, heap_after. rewrite Hrun. simpl.
    split; [reflexivity | split; [| reflexivity]].
    eexists. reflexivity.
  - reflexivity.
  - intros f ->. simpl in Reval. unfold bind, call, on_heap in Reval.
    simpl in Reval. unfold ret in Reval.
    destruct (cl_call f (w_heap w) data) as [[r|e] h2]; simpl in Reval;
      congruence.
  - intros s ->. simpl in Reval. unfold bind, on_heap in Reval.
    simpl in Reval. unfold ret in Reval.
    destruct (py_eval s (w_heap w) data) as [[r|e] h2]; simpl in Reval;
      congruence.
Qed.

(** C3.  The code at the input that breaks the claim: on a table without
    rows, [assert_data(lambda d: len(d) > 0, raise_exception=False,
    verbose=True)] finds the condition false, prints the fail message, and
    then prints the pass message all the same, whatever the host. *)
Theorem assert_data_prints_pass_after_fail
    (self : DataFrameVet.accessor) (r : registry) (t : timer_state) :
  let w := mkWorld (fun _ => empty_table) r t [] in
  let run_it := DataFrameVet.assert_data self (CondCallable has_rows) SNone
                  DataError DataFrameVet.default_pass_message
                  DataFrameVet.default_fail_message false true in
  cl_call has_rows (w_heap w) (VObj (DataFrameVet._obj self))
    = (Ok (VBool false), w_heap w) /\
  result_of run_it w = Ok (VObj (DataFrameVet._obj self)) /\
  output_of run_it w =
    [EvPrint (_format_fail_message r DataFrameVet.default_fail_message
              +:+ ": " +:+ _lambda_to_string has_rows);
     EvPrint (_format_success_message r DataFrameVet.default_pass_message
              +:+ ": " +:+ _lambda_to_string has_rows)].
Proof. intros w run_it. repeat split. Qed.

(** C8.  A condition that is neither a callable nor a string: [assert_data]
    never returns and leaves the world as it was, so no condition is
    evaluated and nothing is printed.  Whenever line 40 yields the data (and
    it always does for a falsy subset) the error is the [TypeError] naming the
    type of the argument, not [exception_class]; an error of the subset
    selection itself is the only other outcome. *)
Theorem assert_data_rejects_other_types
    (self : DataFrameVet.accessor) (w : world) (v : pyval)
    (subset : subset_sel) (exception_class : exn_class)
    (pass_message fail_message : string) (raise_exception verbose : bool)
    (Hnot_str : forall s : string, v <> VStr s) :
  let run_it := DataFrameVet.assert_data self (CondValue v) subset
                  exception_class pass_message fail_message raise_exception
                  verbose in
  let type_error :=
    Exn TypeError ("Argument `condition` is of unexpected type "
                   +:+ type_repr v) in
  (forall data : pyval,
     result_of (DataFrameVet.assert_subject self subset) w = Ok data ->
     run_it w = (Raise type_error, w)) /\
  (subset_truthy subset = false -> run_it w = (Raise type_error, w)) /\
  (forall e : exn,
     result_of (DataFrameVet.assert_subject self subset) w = Raise e ->
     run_it w = (Raise e, w)) /\
  (exists e : exn, run_it w = (Raise e, w)).
Proof.
  intros run_it type_error.
  assert (Hev : forall data,
    DataFrameVet.assert_evaluate (CondValue v) data w = (Raise type_error, w)).
  { intros data. destruct v; try reflexivity. now destruct (Hnot_str s). }
  assert (Hok : forall data,
    result_of (DataFrameVet.assert_subject self subset) w = Ok data ->
    run_it w = (Raise type_error, w)).
  { intros data Hdata.
    pose proof (run_of_reads _ w data (reads_assert_subject self subset) Hdata)
      as Rdata.
    unfold run_it, DataFrameVet.assert_data, bind. rewrite Rdata, Hev.
    reflexivity. }
  assert (Hraise : forall e,
    result_of (DataFrameVet.assert_subject self subset) w = Raise e ->
    run_it w = (Raise e, w)).
  { intros e He. unfold result_of in He.
    pose proof (reads_assert_subject self subset w) as Hw.
    unfold run_it, DataFrameVet.assert_data, bind.
    destruct (DataFrameVet.assert_subject self subset w) as [o w1].
    simpl in *. subst. reflexivity. }
  split; [exact Hok | split; [| split; [exact Hraise |]]].
  - intros Hfalsy. apply (Hok (VObj (DataFrameVet._obj self))).
    unfold result_of, DataFrameVet.assert_subject. rewrite Hfalsy. reflexivity.
  - destruct (result_of (DataFrameVet.assert_subject self subset) w)
      as [data|e] eqn:E.
    + exists type_error. exact (Hok data eq_refl).
    + exists e. exact (Hraise e eq_refl).
Qed.

(** C9.  A falsy [subset] is [None], the empty string or the empty list;
    for each of them line 40 takes the whole dataset, the object itself, and
    [assert_data] is the same computation as with no subset at all.  An empty
    column selection would have been another value: a table without
    columns. *)
Theorem assert_data_falsy_subset_is_whole_dataset
    (self : DataFrameVet.accessor) (subset : subset_sel)
    (Hfalsy : subset_truthy subset = false) :
  (subset = SNone \/ subset = SName "" \/ subset = SList []) /\
  DataFrameVet.assert_subject self subset
    = ret (VObj (DataFrameVet._obj self)) /\
  (forall condition exception_class pass_message fail_message
          raise_exception verbose,
     DataFrameVet.assert_data self condition subset exception_class
       pass_message fail_message raise_exception verbose
     = DataFrameVet.assert_data self condition SNone exception_class
         pass_message fail_message raise_exception verbose) /\
  (forall (f : pycallable) (data : pyval) (w : world),
     result_of (DataFrameVet.assert_subject self subset) w = Ok data ->
     result_of (DataFrameVet.assert_evaluate (CondCallable f) data) w
     = outcome_bind
         (fst (cl_call f (w_heap w) (VObj (DataFrameVet._obj self))))
         (fun result => Ok (result, _lambda_to_string f))) /\
  (forall h : heap,
     getitem h (VObj (DataFrameVet._obj self)) (SList [])
     = Ok (VFrame (mkDataFrame []
             (map (fun _ => []) (df_rows (h (DataFrameVet._obj self))))))).
Proof.
  assert (Hsubject : DataFrameVet.assert_subject self subset
                     = ret (VObj (DataFrameVet._obj self))).
  { unfold DataFrameVet.assert_subject. now rewrite Hfalsy. }
  split; [| split; [exact Hsubject | split; [| split]]].
  - destruct subset as [|c|cs]; simpl in Hfalsy.
    + now left.
    + right; left. f_equal.
      destruct (String.eqb_spec c ""); [assumption | discriminate].
    + right; right. destruct cs; [reflexivity | discriminate].
  - intros. unfold DataFrameVet.assert_data. rewrite Hsubject. reflexivity.
  - intros f data w Hdata. rewrite Hsubject in Hdata.
    unfold result_of, ret in Hdata. simpl in Hdata.
    injection Hdata as <-.
    unfold result_of. simpl. unfold bind, call, on_heap. simpl.
    destruct (cl_call f (w_heap w) (VObj (DataFrameVet._obj self)))
      as [[r|e] h2]; reflexivity.
  - intros h. reflexivity.
Qed.

End AssertData.

(** ** [write] *)

Lemma endswith_nil (s : string) : endswith s "" = true.
Proof.
  induction s as [|x s IH]; [reflexivity|].
  rewrite endswith_cons. destruct (String.eqb (String x s) ""); auto.
Qed.

(** Two endings of one string: one of them ends the other. *)
Lemma endswith_two (s a b : string) :
  endswith s a = true -> endswith s b = true ->
  endswith a b = true \/ endswith b a = true.
Proof.
  induction s as [|x s IH].
  - unfold endswith.
    destruct (String.eqb_spec "" a) as [<-|]; [| discriminate].
    intros _ _. right. apply endswith_nil.
  - rewrite !endswith_cons.
    destruct (String.eqb_spec (String x s) a) as [<-|Ha].
    + intros _ Hb. left. rewrite endswith_cons. exact Hb.
    + destruct (String.eqb_spec (String x s) b) as [<-|Hb].
      * intros Ha' _. right. rewrite endswith_cons.
        destruct (String.eqb_spec (String x s) a); [reflexivity | exact Ha'].
      * apply IH.
Qed.

(** A string with an ending that has a character has that character. *)
Lemma endswith_In (s suf : string) (c : ascii) :
  endswith s suf = true -> In c (list_ascii_of_string suf) ->
  In c (list_ascii_of_string s).
Proof.
  intros [p ->]%endswith_spec Hc. rewrite list_ascii_of_string_app.
  apply in_or_app. now right.
Qed.

Lemma str_contains_In (s sub : string) (c : ascii) :
  str_contains s sub -> In c (list_ascii_of_string sub) ->
  In c (list_ascii_of_string s).
Proof.
  intros (pre & post & ->) Hc. rewrite !list_ascii_of_string_app.
  apply in_or_app. right. apply in_or_app. now left.
Qed.

Section Resolution.
Context `{Host}.
Local Open Scope py_scope.

(** The run of the resolution in any world with the heap of [w]. *)
Lemma modify_data_run_any (data : pyval) (fn : pycallable)
    (subset : subset_sel) (w w' : world) :
  w_heap w' = w_heap w ->
  _modify_data data fn subset w'
  = (result_of (_modify_data data fn subset) w,
     set_heap (heap_after (_modify_data data fn subset) w) w').
Proof.
  intros Hh. unfold result_of, heap_after.
  destruct (modify_data_shape data fn subset (w_heap w)) as (o & h1 & Hall).
  rewrite (Hall w eq_refl), (Hall w' Hh). reflexivity.
Qed.

Lemma modify_data_run (data : pyval) (fn : pycallable) (subset : subset_sel)
    (w w' : world) (v : pyval) :
  result_of (_modify_data data fn subset) w = Ok v ->
  w_heap w' = w_heap w ->
  _modify_data data fn subset w'
  = (Ok v, set_heap (heap_after (_modify_data data fn subset) w) w').
Proof.
  intros Hv Hh. rewrite (modify_data_run_any data fn subset w w' Hh).
  now rewrite Hv.
Qed.

Lemma method_io_run (name : string) (mk : table -> option event)
    (data : pyval) (t : table) (ev : event) (w : world) :
  as_table (w_heap w) data = Some t -> mk t = Some ev ->
  DataFrameVet.method_io name mk data w
  = (match io_error ev with
     | Some e => Raise e
     | None => Ok tt
     end,
     mkWorld (w_heap w) (w_options w) (w_timer w) (w_out w ++ [ev])).
Proof.
  intros Ht Hev. unfold DataFrameVet.method_io, bind, get_heap. simpl.
  rewrite Ht, Hev. unfold host_io, bind, emit. simpl.
  destruct (io_error ev); reflexivity.
Qed.

End Resolution.

Section Write.
Context `{Host}.
Local Open Scope py_scope.

Lemma write_run_encoder (self : DataFrameVet.accessor) (w : world)
    (path : string) (fn : pycallable) (subset : subset_sel) (verbose : bool)
    (data : pyval) (ev : event) :
  let w1 := set_heap (heap_after (_modify_data (VObj (DataFrameVet._obj self))
                                    fn subset) w) w in
  result_of (_modify_data (VObj (DataFrameVet._obj self)) fn subset) w = Ok data ->
  DataFrameVet.write_dispatch data path w1
  = (match io_error ev with
     | Some e => Raise e
     | None => Ok tt
     end,
     mkWorld (w_heap w1) (w_options w1) (w_timer w1) (w_out w1 ++ [ev])) ->
  DataFrameVet.write self path fn subset verbose w
  = after_encoder self verbose ev w1.
Proof.
  intros w1 Hdata Hdisp.
  unfold DataFrameVet.write, bind.
  rewrite (modify_data_run _ fn subset w w data Hdata eq_refl).
  fold w1. rewrite Hdisp.
  unfold after_encoder. destruct (io_error ev); [reflexivity|].
  destruct verbose; simpl; unfold DataFrameVet.return_obj, ret; simpl;
    rewrite <- ?app_assoc; reflexivity.
Qed.

(** C4.  Once the data is resolved to a DataFrame, [write] looks at the end
    of the path only: [.xls] or [.xlsx] calls [to_excel], [.csv] calls
    [to_csv], [.parquet] calls [to_parquet], each once and on the resolved
    data, and when the call succeeds the original object is returned; any
    other ending raises the unknown-extension [AttributeError] with nothing
    written or printed.  The world these start from is the one the
    resolution left: the given one, with the heap as the transform left
    it. *)
Theorem write_dispatches_on_suffix
    (self : DataFrameVet.accessor) (w : world) (path : string)
    (fn : pycallable) (subset : subset_sel) (verbose : bool)
    (data : pyval) (d : DataFrame)
    (Hdata : result_of (_modify_data (VObj (DataFrameVet._obj self)) fn subset) w
             = Ok data)
    (Hframe : as_table (heap_after (_modify_data (VObj (DataFrameVet._obj self))
                                      fn subset) w) data
              = Some (TFrame d)) :
  let run_it := DataFrameVet.write self path fn subset verbose in
  let w1 := set_heap (heap_after (_modify_data (VObj (DataFrameVet._obj self))
                                    fn subset) w) w in
  ((endswith path ".xls" = true \/ endswith path ".xlsx" = true) ->
     run_it w = after_encoder self verbose (EvToExcel (TFrame d) path) w1) /\
  (endswith path ".csv" = true ->
     run_it w = after_encoder self verbose (EvToCsv (TFrame d) path) w1) /\
  (endswith path ".parquet" = true ->
     run_it w = after_encoder self verbose (EvToParquet (TFrame d) path) w1) /\
  (endswith path ".xls" = false -> endswith path ".xlsx" = false ->
   endswith path ".csv" = false -> endswith path ".parquet" = false ->
     run_it w = (Raise (Exn AttributeError
                   ("Can't write data to file. Unknown file extension in: "
                    +:+ path +:+ ". ")), w1)) /\
  (forall ev : event,
     io_error ev = None ->
     result_of (after_encoder self verbose ev) w1
     = Ok (VObj (DataFrameVet._obj self))) /\
  (forall v : pyval,
     result_of run_it w = Ok v -> v = VObj (DataFrameVet._obj self)) /\
  (keeps_heap fn -> w1 = w).
Proof.
  intros run_it w1.
  assert (Hexcl : forall a b : string,
            endswith path a = true -> endswith a b = false ->
            endswith b a = false -> endswith path b = false).
  { intros a b Ha Hab Hba. destruct (endswith path b) eqn:Hb; [| reflexivity].
    destruct (endswith_two path a b Ha Hb); congruence. }
  assert (Hframe1 : as_table (w_heap w1) data = Some (TFrame d)) by exact Hframe.
  split; [| split; [| split; [| split; [| split; [| split]]]]].
  - intros Hx. apply write_run_encoder with (data := data); [exact Hdata|].
    fold w1. unfold DataFrameVet.write_dispatch.
    replace (endswith path ".xls" || endswith path ".xlsx") with true
      by (destruct Hx as [-> | ->]; now rewrite ?orb_true_r).
    exact (method_io_run _ _ data (TFrame d) _ w1 Hframe1 eq_refl).
  - intros Hc. apply write_run_encoder with (data := data); [exact Hdata|].
    fold w1. unfold DataFrameVet.write_dispatch.
    rewrite (Hexcl ".csv" ".xls" Hc eq_refl eq_refl).
    rewrite (Hexcl ".csv" ".xlsx" Hc eq_refl eq_refl).
    rewrite Hc. cbn [orb].
    exact (method_io_run _ _ data (TFrame d) _ w1 Hframe1 eq_refl).
  - intros Hp. apply write_run_encoder with (data := data); [exact Hdata|].
    fold w1. unfold DataFrameVet.write_dispatch.
    rewrite (Hexcl ".parquet" ".xls" Hp eq_refl eq_refl).
    rewrite (Hexcl ".parquet" ".xlsx" Hp eq_refl eq_refl).
    rewrite (Hexcl ".parquet" ".csv" Hp eq_refl eq_refl).
    rewrite Hp. cbn [orb].
    exact (method_io_run _ _ data (TFrame d) _ w1 Hframe1 eq_refl).
  - intros H1 H2 H3 H4.
    unfold run_it, DataFrameVet.write, bind.
    rewrite (modify_data_run _ fn subset w w data Hdata eq_refl). fold w1.
    unfold DataFrameVet.write_dispatch. rewrite H1, H2, H3, H4. reflexivity.
  - intros ev Hev. unfold result_of, after_encoder. rewrite Hev. reflexivity.
  - intros v Hv.
    exact (run_returns_obj self (OpWrite path fn subset verbose) w v Hv).
  - intros Hfn. unfold w1, heap_after.
    rewrite (frames_modify_data _ fn subset Hfn w). apply set_heap_same.
Qed.

End Write.

Section WriteConfirmation.
Context `{Host}.
Local Open Scope py_scope.

Lemma method_io_ok_inv (name : string) (mk : table -> option event)
    (data : pyval) (w : world) :
  fst (DataFrameVet.method_io name mk data w) = Ok tt ->
  exists ev : event,
    DataFrameVet.method_io name mk data w
    = (Ok tt, mkWorld (w_heap w) (w_options w) (w_timer w) (w_out w ++ [ev])).
Proof.
  unfold DataFrameVet.method_io, bind, get_heap. simpl.
  destruct (as_table (w_heap w) data) as [t|]; [| discriminate].
  destruct (mk t) as [ev|]; [| discriminate].
  unfold host_io, bind, emit. simpl.
  destruct (io_error ev); [discriminate|].
  intros _. exists ev. reflexivity.
Qed.

(** A [write] that returns went through one of the three encoders. *)
Lemma write_ok_inv (self : DataFrameVet.accessor) (w : world) (path : string)
    (fn : pycallable) (subset : subset_sel) (verbose : bool) (v : pyval) :
  result_of (DataFrameVet.write self path fn subset verbose) w = Ok v ->
  (endswith path ".xls" = true \/ endswith path ".xlsx" = true \/
   endswith path ".csv" = true \/ endswith path ".parquet" = true) /\
  exists ev : event,
    DataFrameVet.write self path fn subset verbose w
    = (Ok (VObj (DataFrameVet._obj self)),
       mkWorld (heap_after (_modify_data (VObj (DataFrameVet._obj self))
                              fn subset) w)
         (w_options w) (w_timer w)
         (w_out w ++ ev ::
            (if verbose
             then [EvPrint (_filter_emojis (w_options w)
                              DataFrameVet.wrote_file_text)]
             else []))).
Proof.
  unfold result_of, DataFrameVet.write, bind.
  rewrite (modify_data_run_any (VObj (DataFrameVet._obj self)) fn subset w w
             eq_refl).
  set (h1 := heap_after (_modify_data (VObj (DataFrameVet._obj self))
                           fn subset) w).
  destruct (result_of (_modify_data (VObj (DataFrameVet._obj self)) fn subset) w)
    as [data|e]; [| discriminate].
  unfold DataFrameVet.write_dispatch.
  assert (Hstep : forall name mk,
    fst (match DataFrameVet.method_io name mk data (set_heap h1 w) with
         | (Ok _, w') =>
             match (if verbose
                    then bind get_options (fun r =>
                           py_print (_filter_emojis r
                                       DataFrameVet.wrote_file_text))
                    else ret tt) w' with
             | (Ok _, w'') => DataFrameVet.return_obj self w''
             | (Raise e, w'') => (Raise e, w'')
             end
         | (Raise e, w') => (Raise e, w')
         end) = Ok v ->
    exists ev : event,
      match DataFrameVet.method_io name mk data (set_heap h1 w) with
      | (Ok _, w') =>
          match (if verbose
                 then bind get_options (fun r =>
                        py_print (_filter_emojis r
                                    DataFrameVet.wrote_file_text))
                 else ret tt) w' with
          | (Ok _, w'') => DataFrameVet.return_obj self w''
          | (Raise e, w'') => (Raise e, w'')
          end
      | (Raise e, w') => (Raise e, w')
      end
      = (Ok (VObj (DataFrameVet._obj self)),
         mkWorld h1 (w_options w) (w_timer w)
           (w_out w ++ ev ::
              (if verbose
               then [EvPrint (_filter_emojis (w_options w)
                                DataFrameVet.wrote_file_text)]
               else [])))).
  { intros name mk Hv.
    destruct (DataFrameVet.method_io name mk data (set_heap h1 w))
      as [[[]|e] w1] eqn:E; [| discriminate].
    destruct (method_io_ok_inv name mk data (set_heap h1 w)) as [ev Hev];
      [now rewrite E |].
    rewrite E in Hev. injection Hev as ->. exists ev.
    destruct verbose; simpl; unfold DataFrameVet.return_obj, ret; simpl;
      rewrite <- ?app_assoc; reflexivity. }
  destruct (endswith path ".xls") eqn:E1; simpl.
  { intros Hv. split; [now left | now apply Hstep]. }
  destruct (endswith path ".xlsx") eqn:E2; simpl.
  { intros Hv. split; [now right; left | now apply Hstep]. }
  destruct (endswith path ".csv") eqn:E3; simpl.
  { intros Hv. split; [now right; right; left | now apply Hstep]. }
  destruct (endswith path ".parquet") eqn:E4; simpl.
  { intros Hv. split; [now right; right; right | now apply Hstep]. }
  discriminate.
Qed.

(** C10.  When [write] succeeds with [verbose=True], the line printed after
    the encoder call is [_filter_emojis] applied to the literal text
    [Wrote file {path}] with its symbol: the braces are printed as they are
    and the line does not depend on the path.  The literal does not contain
    the path, and neither does the printed line as long as the filter only
    removes characters. *)
Theorem write_confirmation_is_the_literal
    (self : DataFrameVet.accessor) (w : world) (path : string)
    (fn : pycallable) (subset : subset_sel) (v : pyval)
    (Hok : result_of (DataFrameVet.write self path fn subset true) w = Ok v) :
  let message := _filter_emojis (w_options w) DataFrameVet.wrote_file_text in
  DataFrameVet.wrote_file_text = "📦 Wrote file {path}" /\
  (exists ev : event,
     output_of (DataFrameVet.write self path fn subset true) w
     = (w_out w ++ [ev; EvPrint message])%list) /\
  ~ str_contains DataFrameVet.wrote_file_text path /\
  (only_deletes (_filter_emojis (w_options w)) ->
   ~ str_contains message path).
Proof.
  intros message.
  destruct (write_ok_inv self w path fn subset true v Hok) as [Hext [ev Hrun]].
  assert (Hdot : In "."%char (list_ascii_of_string path)).
  { destruct Hext as [E|[E|[E|E]]];
      apply (endswith_In _ _ _ E); simpl; tauto. }
  assert (Hlit : ~ In "."%char
                   (list_ascii_of_string DataFrameVet.wrote_file_text)).
  { simpl. intros Hin.
    repeat (destruct Hin as [Hin|Hin]; [discriminate Hin|]). exact Hin. }
  split; [reflexivity | split; [| split]].
  - exists ev. unfold output_of. rewrite Hrun. reflexivity.
  - intros Hc. apply Hlit. exact (str_contains_In _ _ _ Hc Hdot).
  - intros Hdel Hc. apply Hlit.
    pose proof (str_contains_In _ _ _ Hc Hdot) as Hin.
    apply list_elem_of_In.
    eapply sublist_subseteq; [apply Hdel |].
    apply list_elem_of_In. exact Hin.
Qed.

End WriteConfirmation.

(** ** [set_format] *)

Lemma str_contains_refl (s : string) : str_contains s s.
Proof. exists "", "". now rewrite str_app_nil_r. Qed.

Lemma str_contains_app_l (a b x : string) :
  str_contains a x -> str_contains (a +:+ b) x.
Proof.
  intros (pre & post & ->). exists pre, (post +:+ b).
  now rewrite !str_app_assoc.
Qed.

Lemma str_contains_app_r (a b x : string) :
  str_contains b x -> str_contains (a +:+ b) x.
Proof.
  intros (pre & post & ->). exists (a +:+ pre), post.
  now rewrite !str_app_assoc.
Qed.

Lemma str_join_contains (sep x : string) (l : list string) :
  x ∈ l -> str_contains (str_join sep l) x.
Proof.
  induction l as [|y l IH]; intros Hx.
  - now apply elem_of_nil in Hx.
  - apply elem_of_cons in Hx as [-> | Hx].
    + destruct l as [|z l]; [apply str_contains_refl|].
      apply str_contains_prefix.
    + destruct l as [|z l]; [now apply elem_of_nil in Hx|].
      change (str_join sep (y :: z :: l))
        with (y +:+ sep +:+ str_join sep (z :: l)).
      apply str_contains_app_r, str_contains_app_r, IH, Hx.
Qed.

(** [repr] leaves a kept character as it is between single quotes. *)
Lemma repr_char_kept (a : ascii) :
  kept_char a = true -> repr_char single_quote a = String a "".
Proof.
  destruct a as [[] [] [] [] [] [] [] []]; vm_compute;
    intros E; try discriminate E; reflexivity.
Qed.

Lemma kept_char_not_quote (a : ascii) :
  kept_char a = true -> Ascii.eqb single_quote a = false.
Proof.
  destruct a as [[] [] [] [] [] [] [] []]; vm_compute;
    intros E; try discriminate E; reflexivity.
Qed.

Lemma kept_text_no_quote (s : string) :
  kept_text s = true -> has_char single_quote s = false.
Proof.
  unfold kept_text, has_char.
  induction s as [|a s IH]; [reflexivity|].
  cbn [list_ascii_of_string forallb existsb].
  intros E. apply andb_prop in E as [Ea Es].
  now rewrite (kept_char_not_quote a Ea), (IH Es).
Qed.

Lemma repr_body_kept (s : string) :
  kept_text s = true -> repr_body single_quote s = s +:+ "'".
Proof.
  unfold kept_text.
  induction s as [|a s IH]; [reflexivity|].
  cbn [list_ascii_of_string forallb repr_body].
  intros E. apply andb_prop in E as [Ea Es].
  rewrite (repr_char_kept a Ea), (IH Es).
  now rewrite !str_app_cons, str_app_nil_l.
Qed.

(** On a text without a quote, a backslash or a control character, [repr]
    is the text between single quotes. *)
Lemma repr_str_kept (s : string) :
  kept_text s = true -> repr_str s = "'" +:+ s +:+ "'".
Proof.
  intros E. unfold repr_str, quote_of.
  rewrite (kept_text_no_quote s E). cbn [andb].
  rewrite (repr_body_kept s E).
  now rewrite str_app_cons, str_app_nil_l.
Qed.


(** The list as printed names each of its members that [repr] shows as
    they are. *)
Lemma repr_str_list_contains (x : string) (l : list string) :
  x ∈ l -> kept_text x = true -> str_contains (repr_str_list l) x.
Proof.
  intros Hx Hkept. unfold repr_str_list.
  apply str_contains_app_r, str_contains_app_l.
  destruct (str_join_contains ", " (repr_str x) (map repr_str l))
    as (pre & post & E).
  { apply list_elem_of_fmap. exists x. split; [reflexivity | exact Hx]. }
  rewrite E. apply str_contains_app_r, str_contains_app_l.
  rewrite (repr_str_kept x Hkept). apply str_contains_middle.
Qed.

Section SetFormat.
Context `{Host}.
Local Open Scope py_scope.

(** The options the registry selects are shown as they are. *)
Lemma select_options_kept (r : registry) (pat name : string) :
  name ∈ _select_options r pat -> kept_text name = true.
Proof.
  intros Hin. pose proof (select_options_keys r pat) as Hall.
  rewrite forallb_forall in Hall. apply Hall. now apply list_elem_of_In.
Qed.

Lemma set_format_loop_app (before rest : kwargs) (w w1 : world) :
  DataFrameVet.set_format_loop before w = (Ok tt, w1) ->
  DataFrameVet.set_format_loop (before ++ rest)%list w
  = DataFrameVet.set_format_loop rest w1.
Proof.
  revert w. induction before as [|[a v] before IH]; intros w; simpl.
  - unfold ret. intros E. now injection E as <-.
  - unfold bind.
    destruct (DataFrameVet.set_format_arg a v w) as [[[]|e] w2];
      [apply IH | discriminate].
Qed.

(** C6.  [set_format] qualifies each name with [vet.] unless it already
    starts with it.  A qualified name that is not among the options the
    registry lists for [vet] raises at once an [AttributeError] whose message
    names the option asked for and every valid option, the registry and the
    rest of the world stay as the earlier arguments left them, and the
    arguments after it are never looked at.  A name that is among them is
    handed with its value to the host's [set_option], whose registry
    becomes the current one. *)
Theorem set_format_unknown_option_fails
    (self : DataFrameVet.accessor) (w : world) (arg : string) (value : pyval) :
  let vet_option := qualified arg in
  let valid := _select_options (w_options w) "vet" in
  let message := "No Pandas Vet option for " +:+ vet_option +:+
                 ". Available options: " +:+ repr_str_list valid in
  (startswith arg "vet." = true -> vet_option = arg) /\
  (startswith arg "vet." = false -> vet_option = "vet." +:+ arg) /\
  (vet_option ∉ valid ->
     DataFrameVet.set_format_arg arg value w
       = (Raise (Exn AttributeError message), w) /\
     str_contains message vet_option /\
     (forall name : string, name ∈ valid -> str_contains message name) /\
     (forall (before rest : kwargs) (w0 : world),
        DataFrameVet.set_format_loop before w0 = (Ok tt, w) ->
        DataFrameVet.set_format self (before ++ (arg, value) :: rest)%list w0
        = (Raise (Exn AttributeError message), w))) /\
  (vet_option ∈ valid ->
     DataFrameVet.set_format_arg arg value w
     = match pd_set_option vet_option value (w_options w) with
       | Ok r' => (Ok tt, mkWorld (w_heap w) r' (w_timer w) (w_out w))
       | Raise e => (Raise e, w)
       end).
Proof.
  intros vet_option valid message.
  split; [| split; [| split]].
  - intros E. unfold vet_option, qualified. now rewrite E.
  - intros E. unfold vet_option, qualified. now rewrite E.
  - intros Hnot.
    assert (Harg : DataFrameVet.set_format_arg arg value w
                   = (Raise (Exn AttributeError message), w)).
    { unfold DataFrameVet.set_format_arg, bind, get_options. simpl.
      fold vet_option. fold valid.
      rewrite bool_decide_eq_false_2 by exact Hnot. reflexivity. }
    split; [exact Harg | split; [| split]].
    + unfold message. apply str_contains_app_r, str_contains_prefix.
    + intros name Hname. unfold message.
      apply str_contains_app_r, str_contains_app_r, str_contains_app_r.
      apply repr_str_list_contains; [exact Hname|].
      exact (select_options_kept _ _ _ Hname).
    + intros before rest w0 Hbefore.
      unfold DataFrameVet.set_format, bind.
      rewrite (set_format_loop_app before _ w0 w Hbefore). simpl.
      unfold bind. rewrite Harg. reflexivity.
  - intros Hin.
    unfold DataFrameVet.set_format_arg, bind, get_options. simpl.
    fold vet_option. fold valid.
    rewrite bool_decide_eq_true_2 by exact Hin.
    unfold lift, put_options.
    destruct (pd_set_option vet_option value (w_options w)); reflexivity.
Qed.

End SetFormat.

(** ** The reports of [nnulls] and [ndups] *)

Lemma count_true_filter {A : Type} (p : A -> bool) (l : list A) :
  count_true (map p l) = Z.of_nat (length (List.filter p l)).
Proof.
  induction l as [|x l IH]; [reflexivity|].
  simpl. rewrite IH. destruct (p x); simpl length; lia.
Qed.

(** [isna().sum()] counts, column by column, the rows whose cell is null. *)
Lemma sum_columns_isna (d : DataFrame) (n : nat) :
  sum_columns n (isna_frame d) = map (spec_null_count_of_column d) (seq 0 n).
Proof.
  unfold sum_columns, isna_frame, spec_null_count_of_column.
  apply map_ext. intros j.
  rewrite map_map, count_true_filter. do 2 f_equal.
  induction (df_rows d) as [|r rows IH]; [reflexivity|].
  simpl. rewrite IH. clear IH.
  replace (default false (map is_null r !! j))
    with (bool_decide (r !! j = Some CNull)); [reflexivity|].
  rewrite list_lookup_fmap.
  destruct (r !! j) as [[| |]|]; reflexivity.
Qed.

Lemma existsb_is_null (r : list cell) :
  existsb (fun b => b) (map is_null r) = bool_decide (CNull ∈ r).
Proof.
  induction r as [|c r IH].
  - cbn [existsb map]. symmetry. apply bool_decide_eq_false_2.
    apply not_elem_of_nil.
  - cbn [existsb map]. rewrite IH. destruct c; cbn [is_null orb].
    + symmetry. apply bool_decide_eq_true_2. apply elem_of_cons. now left.
    + apply bool_decide_ext. rewrite elem_of_cons. intuition discriminate.
    + apply bool_decide_ext. rewrite elem_of_cons. intuition discriminate.
Qed.

(** [isna().any(axis=1).sum()] counts the rows that hold a null. *)
Lemma any_axis1_isna (d : DataFrame) :
  count_true (any_axis1 (isna_frame d)) = spec_rows_with_any_null d.
Proof.
  unfold any_axis1, isna_frame, spec_rows_with_any_null.
  rewrite map_map, count_true_filter. do 2 f_equal.
  induction (df_rows d) as [|r rows IH]; [reflexivity|].
  simpl. rewrite IH, existsb_is_null. reflexivity.
Qed.






Section Reports.
Context `{Host}.
Local Open Scope py_scope.

Lemma check_data_run (data : pyval) (check_fn : pycallable)
    (modify_fn : pycallable) (subset : subset_sel) (check_name : option string)
    (w : world) (derived result : pyval) :
  let h1 := heap_after (_modify_data data modify_fn subset) w in
  result_of (_modify_data data modify_fn subset) w = Ok derived ->
  cl_call check_fn h1 derived = (Ok result, h1) ->
  _check_data data (Some check_fn) modify_fn subset check_name w
  = (Ok tt, mkWorld h1 (w_options w) (w_timer w)
              (w_out w ++ [EvDisplay (filter_label (w_options w) check_name)
                                     result])).
Proof.
  intros h1 Hd Hc. unfold _check_data, bind.
  rewrite (modify_data_run _ _ _ w w derived Hd eq_refl). fold h1.
  unfold call, on_heap, get_options, emit. simpl. rewrite Hc. reflexivity.
Qed.

(** A check that raises displays nothing. *)
Lemma check_data_raise (data : pyval) (check_fn : pycallable)
    (modify_fn : pycallable) (subset : subset_sel) (check_name : option string)
    (w : world) (derived : pyval) (e : exn) :
  let h1 := heap_after (_modify_data data modify_fn subset) w in
  result_of (_modify_data data modify_fn subset) w = Ok derived ->
  cl_call check_fn h1 derived = (Raise e, h1) ->
  _check_data data (Some check_fn) modify_fn subset check_name w
  = (Raise e, set_heap h1 w).
Proof.
  intros h1 Hd Hc. unfold _check_data, bind.
  rewrite (modify_data_run _ _ _ w w derived Hd eq_refl). fold h1.
  unfold call, on_heap. simpl. rewrite Hc. reflexivity.
Qed.


End Reports.

Section ReportClaims.
Context `{Host}.
Local Open Scope py_scope.

(** C5, as the code has it.  On data resolved to a DataFrame, [nnulls]
    computes with [by_column=True] the Series of the null counts of the
    columns, labelled by the column names, and displays it; with
    [by_column=False] it computes the number of rows that hold a null in
    some column and prints it on one line with the number of rows.  The
    heap is the one the transform left, which is the given one when the
    transform keeps it.  For the table with columns [a, b] and rows
    [(1, None), (2, 2)] the counts are a: 0 and b: 1, and one row holds a
    null. *)
Theorem nnulls_counts_nulls
    (self : DataFrameVet.accessor) (w : world) (fn : pycallable)
    (subset : subset_sel) (data : pyval) (d : DataFrame)
    (Hdata : result_of (_modify_data (VObj (DataFrameVet._obj self)) fn subset) w
             = Ok data)
    (Hframe : as_table (heap_after (_modify_data (VObj (DataFrameVet._obj self))
                                      fn subset) w) data
              = Some (TFrame d)) :
  let h1 := heap_after (_modify_data (VObj (DataFrameVet._obj self))
                          fn subset) w in
  let per_column :=
    VSeries (mkSeries (map CStr (df_columns d))
               (map (fun j => CInt (spec_null_count_of_column d j))
                    (seq 0 (length (df_columns d))))) in
  let label := if subset_truthy subset
               then "👻 Rows with NaNs in " +:+ str_of_subset subset
               else "👻 Rows with NaNs" in
  DataFrameVet.na_counts_of h1 data true = Ok per_column /\
  DataFrameVet.na_counts_of h1 data false
    = Ok (VInt (spec_rows_with_any_null d)) /\
  DataFrameVet.nnulls self fn subset true None w
    = (Ok (VObj (DataFrameVet._obj self)),
       mkWorld h1 (w_options w) (w_timer w)
         (w_out w ++ [EvPrint "";
                      EvDisplay (Some (_filter_emojis (w_options w) label))
                                per_column])) /\
  DataFrameVet.nnulls self fn subset false None w
    = (Ok (VObj (DataFrameVet._obj self)),
       mkWorld h1 (w_options w) (w_timer w)
         (w_out w ++ [EvPrint "";
                      EvPrint (_filter_emojis (w_options w) (label +:+ ": ")
                               +:+ str_of_Z (spec_rows_with_any_null d)
                               +:+ " out of "
                               +:+ str_of_Z (Z.of_nat (length (df_rows d))))])) /\
  (keeps_heap fn -> h1 = w_heap w) /\
  (d = nulls_table ->
   per_column = VSeries (mkSeries [CStr "a"; CStr "b"] [CInt 0; CInt 1]) /\
   spec_rows_with_any_null d = 1).
Proof.
  intros h1 per_column label.
  assert (Htrue : DataFrameVet.na_counts_of h1 data true = Ok per_column).
  { unfold DataFrameVet.na_counts_of. fold h1 in Hframe. rewrite Hframe. simpl.
    unfold per_column. rewrite sum_columns_isna, map_map. reflexivity. }
  assert (Hfalse : DataFrameVet.na_counts_of h1 data false
                   = Ok (VInt (spec_rows_with_any_null d))).
  { unfold DataFrameVet.na_counts_of. fold h1 in Hframe. rewrite Hframe. simpl.
    unfold isna_any_axis1_sum. now rewrite any_axis1_isna. }
  split; [exact Htrue | split; [exact Hfalse | split; [| split; [| split]]]].
  - unfold DataFrameVet.nnulls, bind, py_print, emit. cbv beta iota.
    erewrite (modify_data_run _ fn subset w _ data Hdata) by reflexivity.
    fold h1. unfold get_heap, lift, get_options. simpl. rewrite Htrue. simpl.
    unfold DataFrameVet.return_obj, ret. unfold label.
    rewrite <- app_assoc. reflexivity.
  - unfold DataFrameVet.nnulls, bind, py_print, emit. cbv beta iota.
    erewrite (modify_data_run _ fn subset w _ data Hdata) by reflexivity.
    fold h1. unfold get_heap, lift, get_options. simpl. rewrite Hfalse. simpl.
    fold h1 in Hframe. rewrite Hframe. simpl.
    unfold DataFrameVet.return_obj, ret. simpl. unfold label.
    destruct (subset_truthy subset); rewrite <- app_assoc;
      rewrite ?str_app_assoc; reflexivity.
  - intros Hfn. unfold h1, heap_after.
    apply (frames_modify_data _ fn subset Hfn w).
  - intros ->. split; reflexivity.
Qed.


End ReportClaims.

(** ** The theorems at concrete calls *)

(** [assert_data(lambda d: len(d) > 0)] on rows [(1, 1), (1, 1), (2, 2)]:
    the condition reads the data only, the call returns the object it was
    built on, and the table is as it was. *)
Lemma accessor_returns_the_dataset_untouched_witness :
  let op := OpAssertData (CondCallable has_rows) SNone DataError
              DataFrameVet.default_pass_message
              DataFrameVet.default_fail_message true false in
  @op_keeps_heap demo_host op /\
  result_of (@run demo_host df0 op) (demo_world dups_table) = Ok (VObj 0%nat) /\
  heap_after (@run demo_host df0 op) (demo_world dups_table) 0%nat = dups_table.
Proof.
  intros op.
  assert (Hk : @op_keeps_heap demo_host op).
  { unfold op. simpl. unfold has_rows. apply keeps_heap_reader. }
  split; [exact Hk | split; [reflexivity |]].
  pose proof (@accessor_returns_the_dataset_untouched demo_host df0 op
                (demo_world dups_table)) as W.
  destruct W as (_ & _ & W & _). exact (W Hk).
Defined.

(** C1, as the claim states it, at a call that breaks it:
    [assert_data(lambda d: d.drop(d.index, inplace=True) is None)] on rows
    [(1, 1), (1, 1), (2, 2)] returns the object it was built on, and the
    object has no rows left. *)
Lemma assert_data_can_empty_the_dataset :
  let op := OpAssertData (CondCallable drop_rows_in_place) SNone DataError
              DataFrameVet.default_pass_message
              DataFrameVet.default_fail_message true false in
  let w := demo_world dups_table in
  result_of (@run demo_host df0 op) w = Ok (VObj 0%nat) /\
  w_heap w 0%nat = dups_table /\
  heap_after (@run demo_host df0 op) w 0%nat = mkDataFrame ["a"; "b"] [] /\
  heap_after (@run demo_host df0 op) w 0%nat <> w_heap w 0%nat /\
  ~ @op_keeps_heap demo_host op.
Proof.
  cbv zeta. split; [reflexivity | split; [reflexivity | split; [reflexivity |]]].
  split.
  - vm_compute. discriminate.
  - simpl. intros Hk.
    specialize (Hk (fun _ => dups_table) (VObj 0%nat)).
    apply (f_equal (fun h : heap => df_rows (h 0%nat))) in Hk.
    vm_compute in Hk. discriminate Hk.
Qed.

(** [assert_data(lambda d: len(d) > 0)] on a table without rows raises the
    default [DataError] with the fail message and the text of the lambda. *)
Lemma assert_data_falsy_witness :
  result_of (@DataFrameVet.assert_subject demo_host df0 SNone)
            (demo_world empty_table) = Ok (VObj 0%nat) /\
  py_bool (VBool false) = Ok false /\
  @DataFrameVet.assert_data demo_host df0 (CondCallable has_rows) SNone
    DataFrameVet.default_exception_class DataFrameVet.default_pass_message
    DataFrameVet.default_fail_message true false (demo_world empty_table)
  = (Raise (Exn DataError " ㄨ Assertion failed : lambda d: len(d) > 0"),
     demo_world empty_table).
Proof.
  split; [reflexivity | split; [reflexivity |]].
  pose proof (@assert_data_falsy demo_host df0 (demo_world empty_table)
                (CondCallable has_rows) SNone
                DataFrameVet.default_exception_class
                DataFrameVet.default_pass_message
                DataFrameVet.default_fail_message true false
                (VObj 0%nat) (VBool false) "lambda d: len(d) > 0"
                eq_refl eq_refl eq_refl) as W.
  cbv zeta in W. destruct W as [W _]. destruct (W eq_refl) as [E _].
  exact E.
Defined.

(** [write("out.csv")] calls [to_csv] on the table and returns the object. *)
Lemma write_dispatches_on_suffix_witness :
  endswith "out.csv" ".csv" = true /\
  @DataFrameVet.write demo_host df0 "out.csv" identity_fn SNone false
    (demo_world dups_table)
  = (Ok (VObj 0%nat),
     @mkWorld demo_host (fun _ => dups_table) demo_options None
       [EvToCsv (TFrame dups_table) "out.csv"]).
Proof.
  split; [reflexivity |].
  pose proof (@write_dispatches_on_suffix demo_host df0 (demo_world dups_table)
                "out.csv" identity_fn SNone false (VObj 0%nat) dups_table
                eq_refl eq_refl) as W.
  cbv zeta in W. destruct W as (_ & W & _). exact (W eq_refl).
Defined.

(** A successful [write("out.csv", verbose=True)] prints the literal, which
    does not hold the path; the filter of the concrete host removes nothing. *)
Lemma write_confirmation_is_the_literal_witness :
  result_of (@DataFrameVet.write demo_host df0 "out.csv" identity_fn SNone true)
            (demo_world dups_table) = Ok (VObj 0%nat) /\
  only_deletes (@_filter_emojis demo_host demo_options) /\
  ~ str_contains "📦 Wrote file {path}" "out.csv" /\
  ~ str_contains (@_filter_emojis demo_host demo_options
                    DataFrameVet.wrote_file_text) "out.csv".
Proof.
  assert (Hdel : only_deletes (@_filter_emojis demo_host demo_options)).
  { intros s. simpl. reflexivity. }
  split; [reflexivity | split; [exact Hdel |]].
  pose proof (@write_confirmation_is_the_literal demo_host df0
                (demo_world dups_table) "out.csv" identity_fn SNone
                (VObj 0%nat) eq_refl) as W.
  cbv zeta in W. destruct W as (_ & _ & W3 & W4).
  split; [exact W3 | exact (W4 Hdel)].
Defined.

(** [set_format(bogus=1)] fails and names the two options there are. *)
Lemma set_format_unknown_option_fails_witness :
  ("vet.bogus" ∉ @_select_options demo_host demo_options "vet") /\
  @DataFrameVet.set_format_arg demo_host "bogus" (VInt 1) (demo_world dups_table)
  = (Raise (Exn AttributeError
       "No Pandas Vet option for vet.bogus. Available options: ['vet.precision', 'vet.use_emojis']"),
     demo_world dups_table) /\
  ("vet.precision" ∈ @_select_options demo_host demo_options "vet") /\
  @DataFrameVet.set_format_arg demo_host "precision" (VInt 3)
    (demo_world dups_table)
  = (Ok tt,
     @mkWorld demo_host (fun _ => dups_table) (VInt 3, VBool true) None []).
Proof.
  assert (Hbogus : "vet.bogus" ∉ @_select_options demo_host demo_options "vet").
  { simpl. intros Hin. repeat (apply elem_of_cons in Hin as [Hin|Hin];
      [discriminate Hin|]). now apply elem_of_nil in Hin. }
  assert (Hprec : "vet.precision" ∈ @_select_options demo_host demo_options "vet").
  { simpl. apply elem_of_cons. now left. }
  split; [exact Hbogus | split; [| split; [exact Hprec |]]].
  - pose proof (@set_format_unknown_option_fails demo_host df0
                  (demo_world dups_table) "bogus" (VInt 1)) as W.
    cbv zeta in W. destruct W as (_ & _ & W & _).
    destruct (W Hbogus) as [E _]. exact E.
  - pose proof (@set_format_unknown_option_fails demo_host df0
                  (demo_world dups_table) "precision" (VInt 3)) as W.
    cbv zeta in W. destruct W as (_ & _ & _ & W). exact (W Hprec).
Defined.


(** [nnulls] on columns [a, b], rows [(1, None), (2, 2)]. *)
Lemma nnulls_counts_nulls_witness :
  as_table (fun _ => nulls_table) (VObj 0%nat) = Some (TFrame nulls_table) /\
  DataFrameVet.na_counts_of (fun _ => nulls_table) (VObj 0%nat) true
  = Ok (VSeries (mkSeries [CStr "a"; CStr "b"] [CInt 0; CInt 1])) /\
  DataFrameVet.na_counts_of (fun _ => nulls_table) (VObj 0%nat) false
  = Ok (VInt 1).
Proof.
  split; [reflexivity |].
  pose proof (@nnulls_counts_nulls demo_host df0 (demo_world nulls_table)
                identity_fn SNone (VObj 0%nat) nulls_table
                eq_refl eq_refl) as W.
  cbv zeta in W. destruct W as (W1 & W2 & _). split; [exact W1 | exact W2].
Defined.

(** C5, as the claim states it, at its own example: with [by_column=True]
    the table with columns [a, b] and rows [(1, None), (2, 2)] does not
    yield a: 1, b: 0; what is displayed is a: 0, b: 1. *)
Lemma nnulls_example_is_not_a1_b0 :
  let claimed := VSeries (mkSeries [CStr "a"; CStr "b"] [CInt 1; CInt 0]) in
  let run_it := @DataFrameVet.nnulls demo_host df0 identity_fn SNone true None in
  DataFrameVet.na_counts_of (fun _ => nulls_table) (VObj 0%nat) true
    <> Ok claimed /\
  output_of run_it (demo_world nulls_table)
    = [EvPrint "";
       EvDisplay (Some "👻 Rows with NaNs")
         (VSeries (mkSeries [CStr "a"; CStr "b"] [CInt 0; CInt 1]))] /\
  ~ In (EvDisplay (Some "👻 Rows with NaNs") claimed)
       (output_of run_it (demo_world nulls_table)).
Proof.
  cbv zeta. split; [| split].
  - vm_compute. discriminate.
  - reflexivity.
  - vm_compute. intros [E | [E | []]]; discriminate E.
Qed.

(** [assert_data(42)] raises the [TypeError]. *)
Lemma assert_data_rejects_other_types_witness :
  (forall s : string, VInt 42 <> VStr s) /\
  @DataFrameVet.assert_data demo_host df0 (CondValue (VInt 42)) SNone DataError
    DataFrameVet.default_pass_message DataFrameVet.default_fail_message
    true true (demo_world dups_table)
  = (Raise (Exn TypeError
       "Argument `condition` is of unexpected type <class 'int'>"),
     demo_world dups_table).
Proof.
  assert (Hnot : forall s : string, VInt 42 <> VStr s) by discriminate.
  split; [exact Hnot |].
  pose proof (@assert_data_rejects_other_types demo_host df0
                (demo_world dups_table) (VInt 42) SNone DataError
                DataFrameVet.default_pass_message
                DataFrameVet.default_fail_message true true Hnot) as W.
  cbv zeta in W. destruct W as (_ & W & _). exact (W eq_refl).
Defined.

(** [assert_data(..., subset=[])] looks at the whole table. *)
Lemma assert_data_falsy_subset_witness :
  subset_truthy (SList []) = false /\
  @DataFrameVet.assert_subject demo_host df0 (SList []) = ret (VObj 0%nat).
Proof.
  split; [reflexivity |].
  pose proof (@assert_data_falsy_subset_is_whole_dataset demo_host df0
                (SList []) eq_refl) as W.
  destruct W as (_ & W & _). exact W.
Defined.

(** ** More of [assert_data] *)

Section AssertDataMore.
Context `{Host}.
Local Open Scope py_scope.

(** The run of the evaluation, from its result. *)
Lemma assert_evaluate_run (condition : condition_arg) (data : pyval)
    (w : world) (rc : pyval * string) :
  result_of (DataFrameVet.assert_evaluate condition data) w = Ok rc ->
  DataFrameVet.assert_evaluate condition data w
  = (Ok rc, set_heap (heap_after (DataFrameVet.assert_evaluate condition data) w)
              w).
Proof.
  unfold heap_after, result_of. intros Heval.
  destruct (assert_evaluate_shape condition data w) as [h2 Hs].
  destruct (DataFrameVet.assert_evaluate condition data w) as [o w2].
  simpl in *. subst. reflexivity.
Qed.

(** X1.  When the condition evaluates to a truthy result, [assert_data]
    never raises, whatever [raise_exception] and [exception_class] are: it
    returns the original object, printing the decorated pass message with the
    text of the condition when [verbose] is set, and nothing otherwise.  The
    heap is as the evaluation of the condition left it: as it was, when the
    condition only reads. *)
Theorem assert_data_truthy
    (self : DataFrameVet.accessor) (w : world) (condition : condition_arg)
    (subset : subset_sel) (exception_class : exn_class)
    (pass_message fail_message : string) (raise_exception verbose : bool)
    (data result : pyval) (condition_str : string)
    (Hdata : result_of (DataFrameVet.assert_subject self subset) w = Ok data)
    (Heval : result_of (DataFrameVet.assert_evaluate condition data) w
             = Ok (result, condition_str))
    (Htruthy : py_bool result = Ok true) :
  DataFrameVet.assert_data self condition subset exception_class
    pass_message fail_message raise_exception verbose w
  = (Ok (VObj (DataFrameVet._obj self)),
     mkWorld (heap_after (DataFrameVet.assert_evaluate condition data) w)
       (w_options w) (w_timer w)
       (w_out w ++
        (if verbose
         then [EvPrint (_format_success_message (w_options w) pass_message
                        +:+ ": " +:+ condition_str)]
         else []))) /\
  (condition_keeps_heap condition ->
   heap_after (DataFrameVet.assert_evaluate condition data) w = w_heap w).
Proof.
  pose proof (run_of_reads _ w data (reads_assert_subject self subset) Hdata)
    as Rdata.
  pose proof (assert_evaluate_run condition data w _ Heval) as Reval.
  split.
  - unfold DataFrameVet.assert_data, bind. rewrite Rdata, Reval.
    unfold lift. rewrite Htruthy. simpl.
    destruct verbose; simpl; unfold DataFrameVet.return_obj, ret; simpl;
      rewrite ?app_nil_r; reflexivity.
  - intros Hk. unfold heap_after.
    now rewrite (frames_assert_evaluate_kept condition data w Hk).
Qed.


(** X3.  A condition whose value is itself a pandas object (a DataFrame or
    a Series, as [lambda d: d > 0] gives) has no truth value: line 48 raises
    the host's [ValueError], not [exception_class], also when
    [raise_exception] is off, and prints nothing.  The heap is as the
    evaluation of the condition left it: as it was, when the condition only
    reads. *)
Theorem assert_data_ambiguous_truth
    (self : DataFrameVet.accessor) (w : world) (condition : condition_arg)
    (subset : subset_sel) (exception_class : exn_class)
    (pass_message fail_message : string) (raise_exception verbose : bool)
    (data result : pyval) (condition_str : string) (t : table)
    (Hdata : result_of (DataFrameVet.assert_subject self subset) w = Ok data)
    (Heval : result_of (DataFrameVet.assert_evaluate condition data) w
             = Ok (result, condition_str))
    (Hpandas : as_table (w_heap w) result = Some t) :
  DataFrameVet.assert_data self condition subset exception_class
    pass_message fail_message raise_exception verbose w
  = (Raise (Exn ValueError "The truth value of a DataFrame is ambiguous."),
     set_heap (heap_after (DataFrameVet.assert_evaluate condition data) w) w) /\
  (condition_keeps_heap condition ->
   heap_after (DataFrameVet.assert_evaluate condition data) w = w_heap w).
Proof.
  pose proof (run_of_reads _ w data (reads_assert_subject self subset) Hdata)
    as Rdata.
  pose proof (assert_evaluate_run condition data w _ Heval) as Reval.
  split.
  - unfold DataFrameVet.assert_data, bind. rewrite Rdata, Reval.
    destruct result; simpl in Hpandas; try discriminate; reflexivity.
  - intros Hk. unfold heap_after.
    now rewrite (frames_assert_evaluate_kept condition data w Hk).
Qed.

End AssertDataMore.

(** ** More of [set_format], and chains of calls *)

Lemma startswith_app (p s : string) : startswith (p +:+ s) p = true.
Proof.
  unfold startswith. induction p as [|x p IH].
  - destruct s; reflexivity.
  - rewrite str_app_cons. simpl.
    destruct (ascii_dec x x) as [_|Hx]; [exact IH | now destruct Hx].
Qed.

Section SetFormatMore.
Context `{Host}.
Local Open Scope py_scope.

Lemma qualified_startswith (arg : string) :
  startswith (qualified arg) "vet." = true.
Proof.
  unfold qualified. destruct (startswith arg "vet.") eqn:E; [exact E|].
  apply startswith_app.
Qed.

(** X4.  An option can be named with or without its namespace: the name
    [set_format] looks up always starts with [vet.], qualifying is idempotent,
    and the argument [x] is handled by the very computation that handles
    [vet.x], with the rest of the arguments as well. *)
Theorem set_format_accepts_both_spellings
    (self : DataFrameVet.accessor) (arg : string) (value : pyval) :
  startswith (qualified arg) "vet." = true /\
  qualified (qualified arg) = qualified arg /\
  DataFrameVet.set_format_arg (qualified arg) value
    = DataFrameVet.set_format_arg arg value /\
  (forall rest : kwargs,
     DataFrameVet.set_format self ((qualified arg, value) :: rest)
     = DataFrameVet.set_format self ((arg, value) :: rest)) /\
  (startswith arg "vet." = false -> qualified arg = "vet." +:+ arg).
Proof.
  assert (Hq : qualified (qualified arg) = qualified arg).
  { unfold qualified at 1. now rewrite qualified_startswith. }
  assert (Harg : DataFrameVet.set_format_arg (qualified arg) value
                 = DataFrameVet.set_format_arg arg value).
  { unfold DataFrameVet.set_format_arg. now rewrite Hq. }
  split; [apply qualified_startswith | split; [exact Hq | split; [exact Harg |]]].
  split.
  - intros rest. unfold DataFrameVet.set_format. simpl. now rewrite Harg.
  - intros E. unfold qualified. now rewrite E.
Qed.

Lemma set_format_arg_frame (arg : string) (value : pyval) (w : world) :
  let w' := snd (DataFrameVet.set_format_arg arg value w) in
  w_heap w' = w_heap w /\ w_timer w' = w_timer w /\ w_out w' = w_out w.
Proof.
  unfold DataFrameVet.set_format_arg, bind, get_options, lift, put_options.
  simpl.
  destruct (bool_decide _); simpl; [| auto].
  destruct (pd_set_option _ _ _); simpl; auto.
Qed.

(** X5.  Whatever the keyword arguments, and whether it fails or not,
    [set_format] prints nothing and leaves the timer and every DataFrame
    alone: the option registry is all it can change. *)
Theorem set_format_only_changes_options
    (self : DataFrameVet.accessor) (kw : kwargs) (w : world) :
  let w' := snd (DataFrameVet.set_format self kw w) in
  w_heap w' = w_heap w /\ w_timer w' = w_timer w /\ w_out w' = w_out w.
Proof.
  assert (Hloop : forall kw0 w0,
    let w' := snd (DataFrameVet.set_format_loop kw0 w0) in
    w_heap w' = w_heap w0 /\ w_timer w' = w_timer w0 /\ w_out w' = w_out w0).
  { induction kw0 as [|[a v] kw0 IH]; intros w0; simpl; [auto|].
    unfold bind. pose proof (set_format_arg_frame a v w0) as Ha.
    destruct (DataFrameVet.set_format_arg a v w0) as [[[]|e] w1];
      simpl in Ha; [| exact Ha].
    destruct (IH w1) as (I1 & I2 & I3). destruct Ha as (A1 & A2 & A3).
    repeat split; congruence. }
  unfold DataFrameVet.set_format, bind. specialize (Hloop kw w).
  destruct (DataFrameVet.set_format_loop kw w) as [[[]|e] w1]; exact Hloop.
Qed.

(** X6.  A chain [df.check.op1(...).check.op2(...)...] is the operations
    run one after the other on the accessor of the one original DataFrame:
    every link that returns hands the same object to the next.  So a chain
    that completes returns the original object, and two chains put end to
    end are one chain.  When the user code of every link leaves the heap as
    it finds it, so does the chain. *)
Theorem chain_runs_on_the_original_dataset
    (self : DataFrameVet.accessor) (ops : list operation) :
  (forall w : world, chain self ops w = run_all self ops w) /\
  (forall w : world,
     result_of (chain self ops) w = Ok (VObj (DataFrameVet._obj self)) \/
     exists e : exn, result_of (chain self ops) w = Raise e) /\
  (forall (more : list operation) (w : world),
     chain self (ops ++ more) w
     = bind (chain self ops) (fun _ => chain self more) w) /\
  (Forall op_keeps_heap ops ->
   forall w : world, w_heap (snd (chain self ops w)) = w_heap w).
Proof.
  assert (Hstep : forall op rest w,
    bind (run self op) (fun v => match v with
                                 | VObj l => chain (DataFrameVet.__init__ l) rest
                                 | _ => raise (no_attribute "check")
                                 end) w
    = bind (run self op) (fun _ => chain self rest) w).
  { intros op rest w. unfold bind.
    destruct (run self op w) as [[v|e] w1] eqn:E; [| reflexivity].
    assert (Hv : v = VObj (DataFrameVet._obj self)).
    { apply (run_returns_obj self op w). now rewrite E. }
    subst v. destruct self. reflexivity. }
  assert (Hall : forall ops0 w, chain self ops0 w = run_all self ops0 w).
  { induction ops0 as [|op rest IH]; intros w; simpl; [reflexivity|].
    rewrite Hstep. unfold bind.
    destruct (run self op w) as [[v|e] w1]; [apply IH | reflexivity]. }
  assert (Hret : forall ops0 w,
    result_of (run_all self ops0) w = Ok (VObj (DataFrameVet._obj self)) \/
    exists e : exn, result_of (run_all self ops0) w = Raise e).
  { induction ops0 as [|op rest IH]; intros w; simpl.
    - left; reflexivity.
    - unfold result_of, bind.
      destruct (run self op w) as [[v|e] w1]; simpl.
      + apply IH.
      + right; exists e; reflexivity. }
  assert (Hframe : forall ops0, Forall op_keeps_heap ops0 ->
    forall w, w_heap (snd (run_all self ops0 w)) = w_heap w).
  { induction 1 as [|op rest Hop Hrest IH]; intros w; simpl; [reflexivity|].
    unfold bind. pose proof (run_frames_heap self op Hop w) as Hh.
    destruct (run self op w) as [[v|e] w1]; simpl in Hh.
    + rewrite IH. exact Hh.
    + exact Hh. }
  assert (Happ : forall ops0 more w,
    run_all self (ops0 ++ more) w
    = bind (run_all self ops0) (fun _ => run_all self more) w).
  { induction ops0 as [|op rest IH]; intros more w; simpl.
    - reflexivity.
    - unfold bind at 1 2 3.
      destruct (run self op w) as [[v|e] w1]; [| reflexivity].
      rewrite IH. reflexivity. }
  split; [exact (Hall ops) | split; [| split]].
  - intros w. unfold result_of. rewrite Hall. apply Hret.
  - intros more w. rewrite Hall, Happ. unfold bind.
    rewrite <- Hall.
    destruct (chain self ops w) as [[v|e] w1]; [| reflexivity].
    symmetry. apply Hall.
  - intros Hops w. rewrite Hall. now apply Hframe.
Qed.

End SetFormatMore.

(** ** Plots, headers and selections of one column *)

Section Edges.
Context `{Host}.
Local Open Scope py_scope.

(** X7.  [hist] draws the histogram of the resolved data first and titles
    it afterwards.  A truthy [check_name] is the title.  Without one the
    title is [Distribution] when [len(subset)] is 1 and [Distributions]
    otherwise, so for a list of columns by their number (the default, the
    empty list, gives the plural) and for a column name by its number of
    characters; and with [subset=None] the call raises the [TypeError] of
    [len(None)] with the histogram already drawn.  The objects are as
    the transform left them: as they were, when it only reads. *)
Theorem hist_title_follows_len_of_subset
    (self : DataFrameVet.accessor) (w : world) (fn : pycallable)
    (subset : subset_sel) (check_name : option string) (kw : kwargs)
    (data : pyval) (t : table)
    (Hdata : result_of (_modify_data (VObj (DataFrameVet._obj self)) fn subset) w
             = Ok data)
    (Htable : as_table (heap_after (_modify_data (VObj (DataFrameVet._obj self))
                                      fn subset) w) data
              = Some t)
    (Hdrawn : io_error (EvHist t kw) = None) :
  let run_it := DataFrameVet.hist self fn subset check_name kw in
  let h1 := heap_after (_modify_data (VObj (DataFrameVet._obj self))
                          fn subset) w in
  let titled (title : string) : Prop :=
    output_of run_it w = (w_out w ++ [EvHist t kw; EvSupTitle title])%list in
  (str_truthy check_name = true -> titled (default "" check_name)) /\
  (str_truthy check_name = false ->
   (forall cs : list string,
      subset = SList cs ->
      titled (if Nat.eqb (length cs) 1 then "Distribution"
              else "Distributions")) /\
   (forall c : string,
      subset = SName c ->
      Forall (fun a => (nat_of_ascii a < 128)%nat) (list_ascii_of_string c) ->
      titled (if Nat.eqb (String.length c) 1 then "Distribution"
              else "Distributions")) /\
   (subset = SNone ->
      run_it w
      = (Raise (Exn TypeError "object of type 'NoneType' has no len()"),
         mkWorld h1 (w_options w) (w_timer w) (w_out w ++ [EvHist t kw])))) /\
  (keeps_heap fn -> h1 = w_heap w).
Proof.
  intros run_it h1 titled. fold h1 in Htable.
  assert (Hkept : keeps_heap fn -> h1 = w_heap w).
  { intros Hfn. unfold h1, heap_after.
    apply (frames_modify_data _ fn subset Hfn w). }
  assert (Hpre : forall k : unit -> M pyval,
    bind (_modify_data (VObj (DataFrameVet._obj self)) fn subset)
      (fun data0 => bind (DataFrameVet.method_io "hist"
                            (fun t0 => Some (EvHist t0 kw)) data0) k) w
    = k tt (mkWorld h1 (w_options w) (w_timer w)
              (w_out w ++ [EvHist t kw]))).
  { intros k. unfold bind at 1.
    rewrite (modify_data_run _ fn subset w w data Hdata eq_refl). fold h1.
    unfold bind.
    rewrite (method_io_run "hist" _ data t (EvHist t kw) (set_heap h1 w)
               Htable eq_refl).
    rewrite Hdrawn. reflexivity. }
  assert (Htitle : forall title : string,
    output_of (bind (host_io (EvSupTitle title))
                 (fun _ => DataFrameVet.return_obj self))
      (mkWorld h1 (w_options w) (w_timer w) (w_out w ++ [EvHist t kw]))
    = (w_out w ++ [EvHist t kw; EvSupTitle title])%list).
  { intros title. unfold output_of, bind, host_io, bind, emit. simpl.
    destruct (io_error (EvSupTitle title)); simpl;
      rewrite <- app_assoc; reflexivity. }
  split; [| split; [| exact Hkept]].
  - intros Hname. unfold titled, output_of, run_it, DataFrameVet.hist.
    rewrite Hpre. rewrite Hname. unfold bind at 1, ret at 1.
    apply Htitle.
  - intros Hname. split; [| split].
    + intros cs ->. unfold titled, output_of, run_it, DataFrameVet.hist.
      rewrite Hpre. rewrite Hname. unfold bind at 1. unfold bind at 1.
      unfold lift, len_subset, ret.
      replace (Z.of_nat (length cs) =? 1) with (Nat.eqb (length cs) 1).
      * apply Htitle.
      * destruct (Nat.eqb_spec (length cs) 1) as [E|E].
        -- rewrite E. reflexivity.
        -- symmetry. apply Z.eqb_neq. lia.
    + intros c -> _. unfold titled, output_of, run_it, DataFrameVet.hist.
      rewrite Hpre. rewrite Hname. unfold bind at 1. unfold bind at 1.
      unfold lift, len_subset, ret.
      replace (Z.of_nat (String.length c) =? 1)
        with (Nat.eqb (String.length c) 1).
      * apply Htitle.
      * destruct (Nat.eqb_spec (String.length c) 1) as [E|E].
        -- rewrite E. reflexivity.
        -- symmetry. apply Z.eqb_neq. lia.
    + intros ->. unfold run_it, DataFrameVet.hist.
      rewrite Hpre. rewrite Hname. reflexivity.
Qed.

(** X8.  [info] and [nnulls] print before they resolve the data: when the
    subset selection or the transform fails, the exception comes out with
    the blank line already printed, and for [info] the header as well.  The objects are as
    the transform left them: as they were, when it only reads. *)
Theorem header_is_printed_before_the_data_is_resolved
    (self : DataFrameVet.accessor) (w : world) (fn : pycallable)
    (subset : subset_sel) (check_name : option string) (kw : kwargs)
    (by_column : bool) (e : exn)
    (Hfail : result_of (_modify_data (VObj (DataFrameVet._obj self)) fn subset) w
             = Raise e) :
  let h1 := heap_after (_modify_data (VObj (DataFrameVet._obj self))
                          fn subset) w in
  DataFrameVet.info self fn subset check_name kw w
    = (Raise e,
       mkWorld h1 (w_options w) (w_timer w)
         (w_out w ++ [EvPrint "";
                      EvPrint (default "None"
                                 (filter_label (w_options w) check_name))])) /\
  DataFrameVet.nnulls self fn subset by_column check_name w
    = (Raise e,
       mkWorld h1 (w_options w) (w_timer w) (w_out w ++ [EvPrint ""])) /\
  (keeps_heap fn -> h1 = w_heap w).
Proof.
  intros h1. split; [| split].
  - unfold DataFrameVet.info, bind, py_print, emit, get_options.
    cbv beta iota.
    erewrite (modify_data_run_any _ fn subset w) by reflexivity.
    rewrite Hfail. fold h1. unfold set_heap. simpl.
    rewrite <- app_assoc. reflexivity.
  - unfold DataFrameVet.nnulls, bind, py_print, emit. cbv beta iota.
    erewrite (modify_data_run_any _ fn subset w) by reflexivity.
    rewrite Hfail. reflexivity.
  - intros Hfn. unfold h1, heap_after.
    apply (frames_modify_data _ fn subset Hfn w).
Qed.

(** X9.  On one column (data resolved to a Series) [by_column] makes no
    difference to [nnulls]: either way it prints, after the blank line, one
    line with the number of nulls of the column out of its length.  The objects are as
    the transform left them: as they were, when it only reads. *)
Theorem nnulls_on_a_series_ignores_by_column
    (self : DataFrameVet.accessor) (w : world) (fn : pycallable)
    (subset : subset_sel) (by_column : bool) (data : pyval) (s : Series)
    (Hdata : result_of (_modify_data (VObj (DataFrameVet._obj self)) fn subset) w
             = Ok data)
    (Hseries : as_table (heap_after (_modify_data
                                       (VObj (DataFrameVet._obj self))
                                       fn subset) w) data
               = Some (TSeries s)) :
  let h1 := heap_after (_modify_data (VObj (DataFrameVet._obj self))
                          fn subset) w in
  let label := if subset_truthy subset
               then "👻 Rows with NaNs in " +:+ str_of_subset subset +:+ ": "
               else "👻 Rows with NaNs: " in
  DataFrameVet.nnulls self fn subset by_column None w
  = (Ok (VObj (DataFrameVet._obj self)),
     mkWorld h1 (w_options w) (w_timer w)
       (w_out w ++
        [EvPrint "";
         EvPrint (_filter_emojis (w_options w) label
                  +:+ str_of_Z (Z.of_nat (length
                        (List.filter is_null (s_values s))))
                  +:+ " out of "
                  +:+ str_of_Z (Z.of_nat (length (s_values s))))])) /\
  (keeps_heap fn -> h1 = w_heap w).
Proof.
  intros h1 label. fold h1 in Hseries. split.
  - unfold DataFrameVet.nnulls, bind, py_print, emit. cbv beta iota.
    erewrite (modify_data_run _ fn subset w _ data Hdata) by reflexivity.
    fold h1.
    unfold get_heap, lift, get_options, DataFrameVet.na_counts_of. simpl.
    rewrite Hseries. simpl. rewrite count_true_filter.
    unfold DataFrameVet.return_obj, ret. simpl. unfold label.
    destruct (subset_truthy subset); rewrite <- app_assoc; reflexivity.
  - intros Hfn. unfold h1, heap_after.
    apply (frames_modify_data _ fn subset Hfn w).
Qed.

(** X10.  With a check name of its own, [nnulls] never goes through the
    report dispatcher: for a table or a single column, by column or not, it
    prints the blank line and then one line, the filtered name, a colon and
    the counts as [str] shows them.  The objects are as
    the transform left them: as they were, when it only reads. *)
Theorem nnulls_with_a_check_name_prints_one_line
    (self : DataFrameVet.accessor) (w : world) (fn : pycallable)
    (subset : subset_sel) (by_column : bool) (name : string)
    (data na_counts : pyval)
    (Hname : name <> "")
    (Hdata : result_of (_modify_data (VObj (DataFrameVet._obj self)) fn subset) w
             = Ok data)
    (Hcounts : DataFrameVet.na_counts_of
                 (heap_after (_modify_data (VObj (DataFrameVet._obj self))
                                fn subset) w) data by_column
               = Ok na_counts) :
  DataFrameVet.nnulls self fn subset by_column (Some name) w
  = (Ok (VObj (DataFrameVet._obj self)),
     mkWorld (heap_after (_modify_data (VObj (DataFrameVet._obj self))
                            fn subset) w)
       (w_options w) (w_timer w)
       (w_out w ++
        [EvPrint "";
         EvPrint (_filter_emojis (w_options w) name +:+ ": "
                  +:+ py_str na_counts)])) /\
  (keeps_heap fn ->
   heap_after (_modify_data (VObj (DataFrameVet._obj self)) fn subset) w
   = w_heap w).
Proof.
  split.
  - unfold DataFrameVet.nnulls, bind, py_print, emit. cbv beta iota.
    erewrite (modify_data_run _ fn subset w _ data Hdata) by reflexivity.
    unfold get_heap, lift, get_options. simpl. rewrite Hcounts. simpl.
    destruct (String.eqb_spec name "") as [E|_]; [now destruct Hname|].
    simpl. unfold DataFrameVet.return_obj, ret. simpl.
    rewrite <- app_assoc. reflexivity.
  - intros Hfn. unfold heap_after.
    apply (frames_modify_data _ fn subset Hfn w).
Qed.

(** X11.  [write] resolves the data before it looks at the path, and needs
    a pandas object to write: when the resolution raises, that exception
    comes out whatever the path is, also for an unknown extension; when the
    transform returns something that is no DataFrame or Series, a known
    extension raises the [AttributeError] of the missing encoder.  In both
    cases no encoder is called and nothing is printed.  The objects are as
    the transform left them: as they were, when it only reads. *)
Theorem write_fails_before_writing
    (self : DataFrameVet.accessor) (w : world) (path : string)
    (fn : pycallable) (subset : subset_sel) (verbose : bool) :
  let run_it := DataFrameVet.write self path fn subset verbose in
  let w1 := set_heap (heap_after (_modify_data (VObj (DataFrameVet._obj self))
                                    fn subset) w) w in
  (forall e : exn,
     result_of (_modify_data (VObj (DataFrameVet._obj self)) fn subset) w
       = Raise e ->
     run_it w = (Raise e, w1)) /\
  (forall data : pyval,
     result_of (_modify_data (VObj (DataFrameVet._obj self)) fn subset) w
       = Ok data ->
     as_table (w_heap w1) data = None ->
     exists e : exn,
       run_it w = (Raise e, w1) /\
       (endswith path ".csv" = true -> e = no_attribute "to_csv") /\
       (endswith path ".parquet" = true -> e = no_attribute "to_parquet") /\
       (endswith path ".xls" = true \/ endswith path ".xlsx" = true ->
        e = no_attribute "to_excel")) /\
  (keeps_heap fn -> w1 = w).
Proof.
  intros run_it w1. split; [| split].
  3: { intros Hfn. unfold w1, heap_after.
       rewrite (frames_modify_data _ fn subset Hfn w). apply set_heap_same. }
  - intros e Hfail. unfold run_it, DataFrameVet.write, bind.
    rewrite (modify_data_run_any _ fn subset w w eq_refl), Hfail. reflexivity.
  - intros data Hdata Hnone.
    assert (Hexcl : forall a b : string,
              endswith path a = true -> endswith a b = false ->
              endswith b a = false -> endswith path b = false).
    { intros a b Ha Hab Hba. destruct (endswith path b) eqn:Hb; [| reflexivity].
      destruct (endswith_two path a b Ha Hb); congruence. }
    assert (Hio : forall name mk,
      DataFrameVet.method_io name mk data w1 = (Raise (no_attribute name), w1)).
    { intros name mk. unfold DataFrameVet.method_io, bind, get_heap. simpl.
      simpl in Hnone. now rewrite Hnone. }
    unfold run_it, DataFrameVet.write, bind.
    rewrite (modify_data_run _ fn subset w w data Hdata eq_refl). fold w1.
    unfold DataFrameVet.write_dispatch.
    destruct (endswith path ".xls") eqn:E1; cbn [orb].
    { rewrite Hio. eexists. split; [reflexivity|].
      rewrite (Hexcl ".xls" ".csv" E1 eq_refl eq_refl).
      rewrite (Hexcl ".xls" ".parquet" E1 eq_refl eq_refl).
      repeat split; intros; try discriminate; reflexivity. }
    destruct (endswith path ".xlsx") eqn:E2; cbn [orb].
    { rewrite Hio. eexists. split; [reflexivity|].
      rewrite (Hexcl ".xlsx" ".csv" E2 eq_refl eq_refl).
      rewrite (Hexcl ".xlsx" ".parquet" E2 eq_refl eq_refl).
      repeat split; intros; try discriminate; reflexivity. }
    destruct (endswith path ".csv") eqn:E3; cbn [orb].
    { rewrite Hio. eexists. split; [reflexivity|].
      rewrite (Hexcl ".csv" ".parquet" E3 eq_refl eq_refl).
      repeat split; intros; try discriminate; try reflexivity.
      destruct H0; discriminate. }
    destruct (endswith path ".parquet") eqn:E4; cbn [orb].
    { rewrite Hio. eexists. split; [reflexivity|].
      repeat split; intros; try discriminate; try reflexivity.
      destruct H0; discriminate. }
    eexists. split; [reflexivity|].
    repeat split; intros; try discriminate. destruct H0; discriminate.
Qed.

End Edges.

Lemma has_title_spec (kw : kwargs) :
  existsb (fun kv => String.eqb (fst kv) "title") kw = true <->
  exists v : pyval, In ("title", v) kw.
Proof.
  rewrite existsb_exists. split.
  - intros ([k v] & Hin & Hk). simpl in Hk.
    apply String.eqb_eq in Hk. subst k. now exists v.
  - intros (v & Hin). exists ("title", v). split; [exact Hin | reflexivity].
Qed.

Section EdgesMore.
Context `{Host}.
Local Open Scope py_scope.

(** X12.  As the docstring of [plot] says, a [title] among the keyword
    arguments overrides [check_name]: the keyword arguments then reach the
    host's [plot] exactly as given, and [check_name] is not used.  Without
    one, the filtered [check_name] is added to them as the title, after the
    others. *)
Theorem plot_title_overrides_check_name
    (self : DataFrameVet.accessor) (w : world) (fn : pycallable)
    (subset : subset_sel) (check_name : option string) (kw : kwargs)
    (data : pyval) (t : table)
    (Hdata : result_of (_modify_data (VObj (DataFrameVet._obj self)) fn subset) w
             = Ok data)
    (Htable : as_table (heap_after (_modify_data (VObj (DataFrameVet._obj self))
                                      fn subset) w) data
              = Some t) :
  let run_it := DataFrameVet.plot self fn subset check_name kw in
  let title := match filter_label (w_options w) check_name with
               | Some s => VStr s
               | None => VNone
               end in
  ((exists v : pyval, In ("title", v) kw) ->
   output_of run_it w = (w_out w ++ [EvPlot t kw])%list) /\
  ((forall v : pyval, ~ In ("title", v) kw) ->
   output_of run_it w = (w_out w ++ [EvPlot t (kw ++ [("title", title)])])%list).
Proof.
  intros run_it title.
  assert (Hrun : output_of run_it w
                 = (w_out w ++ [EvPlot t (DataFrameVet.with_title kw title)])%list).
  { unfold output_of, run_it, DataFrameVet.plot, bind.
    rewrite (modify_data_run _ fn subset w w data Hdata eq_refl).
    unfold get_options. simpl.
    rewrite (method_io_run "plot" _ data t
               (EvPlot t (DataFrameVet.with_title kw title))
               (set_heap (heap_after (_modify_data
                                        (VObj (DataFrameVet._obj self))
                                        fn subset) w) w)
               Htable eq_refl).
    destruct (io_error _); reflexivity. }
  split.
  - intros Hex. rewrite Hrun. unfold DataFrameVet.with_title.
    apply has_title_spec in Hex. now rewrite Hex.
  - intros Hno. rewrite Hrun. unfold DataFrameVet.with_title.
    destruct (existsb _ kw) eqn:E; [| reflexivity].
    apply has_title_spec in E as [v Hv]. now destruct (Hno v).
Qed.

(** X13.  With one column selected (data resolved to a Series) [nrows]
    still reports the number of rows, but [ncols] fails on [shape[1]] with
    an [IndexError] and [columns] on the missing [columns] attribute, both
    with nothing displayed.  The objects are as
    the transform left them: as they were, when it only reads. *)
Theorem ncols_and_columns_need_a_dataframe
    (self : DataFrameVet.accessor) (w : world) (fn : pycallable)
    (subset : subset_sel) (check_name : option string)
    (data : pyval) (s : Series)
    (Hdata : result_of (_modify_data (VObj (DataFrameVet._obj self)) fn subset) w
             = Ok data)
    (Hseries : as_table (heap_after (_modify_data
                                       (VObj (DataFrameVet._obj self))
                                       fn subset) w) data
               = Some (TSeries s)) :
  let h1 := heap_after (_modify_data (VObj (DataFrameVet._obj self))
                          fn subset) w in
  DataFrameVet.ncols self fn subset check_name w
    = (Raise (Exn (OtherError "IndexError") "tuple index out of range"),
       set_heap h1 w) /\
  DataFrameVet.columns self fn subset check_name w
    = (Raise (no_attribute "columns"), set_heap h1 w) /\
  DataFrameVet.nrows self fn subset check_name w
    = (Ok (VObj (DataFrameVet._obj self)),
       mkWorld h1 (w_options w) (w_timer w)
         (w_out w ++ [EvDisplay (filter_label (w_options w) check_name)
                                (VInt (Z.of_nat (length (s_values s))))])) /\
  (keeps_heap fn -> h1 = w_heap w).
Proof.
  intros h1. fold h1 in Hseries.
  split; [| split; [| split]].
  4: { intros Hfn. unfold h1, heap_after.
       apply (frames_modify_data _ fn subset Hfn w). }
  - unfold DataFrameVet.ncols, bind.
    erewrite check_data_raise; [reflexivity | exact Hdata |].
    fold h1. simpl. rewrite Hseries. reflexivity.
  - unfold DataFrameVet.columns, bind.
    erewrite check_data_raise; [reflexivity | exact Hdata |].
    fold h1. simpl. rewrite Hseries. reflexivity.
  - unfold DataFrameVet.nrows, bind.
    erewrite check_data_run; [reflexivity | exact Hdata |].
    fold h1. simpl. rewrite Hseries. reflexivity.
Qed.

End EdgesMore.

(** ** The further theorems at concrete calls *)

(** [lambda d: d], whose value is the DataFrame itself. *)
Lemma assert_data_ambiguous_truth_witness :
  as_table (fun _ => dups_table) (VObj 0%nat) = Some (TFrame dups_table) /\
  @DataFrameVet.assert_data demo_host df0 (CondCallable identity_fn) SNone
    DataError DataFrameVet.default_pass_message
    DataFrameVet.default_fail_message false true (demo_world dups_table)
  = (Raise (Exn ValueError "The truth value of a DataFrame is ambiguous."),
     demo_world dups_table).
Proof.
  split; [reflexivity |].
  pose proof (@assert_data_ambiguous_truth demo_host df0 (demo_world dups_table)
                (CondCallable identity_fn) SNone DataError
                DataFrameVet.default_pass_message
                DataFrameVet.default_fail_message false true
                (VObj 0%nat) (VObj 0%nat) "lambda df: df" (TFrame dups_table)
                eq_refl eq_refl eq_refl) as W.
  destruct W as [W _]. exact W.
Defined.

(** [assert_data(lambda d: len(d) > 0, verbose=True)] on a table with rows. *)
Lemma assert_data_truthy_witness :
  py_bool (VBool true) = Ok true /\
  @DataFrameVet.assert_data demo_host df0 (CondCallable has_rows) SNone
    DataError DataFrameVet.default_pass_message
    DataFrameVet.default_fail_message true true (demo_world dups_table)
  = (Ok (VObj 0%nat),
     @mkWorld demo_host (fun _ => dups_table) demo_options None
       [EvPrint " ✔️ Assertion passed : lambda d: len(d) > 0"]).
Proof.
  split; [reflexivity |].
  pose proof (@assert_data_truthy demo_host df0 (demo_world dups_table)
                (CondCallable has_rows) SNone DataError
                DataFrameVet.default_pass_message
                DataFrameVet.default_fail_message true true
                (VObj 0%nat) (VBool true) "lambda d: len(d) > 0"
                eq_refl eq_refl eq_refl) as W.
  destruct W as [W _]. exact W.
Defined.


(** The chain [assert_data(lambda d: len(d) > 0).nrows()] on rows
    [(1, 1), (1, 1), (2, 2)]: both links only read the table, and it is as
    it was. *)
Lemma chain_runs_on_the_original_dataset_witness :
  let ops := [OpAssertData (CondCallable has_rows) SNone DataError
                DataFrameVet.default_pass_message
                DataFrameVet.default_fail_message true false;
              OpNrows identity_fn SNone None] in
  Forall (@op_keeps_heap demo_host) ops /\
  w_heap (snd (@chain demo_host df0 ops (demo_world dups_table)))
  = w_heap (demo_world dups_table).
Proof.
  intros ops.
  assert (Hk : Forall (@op_keeps_heap demo_host) ops).
  { unfold ops. repeat constructor; simpl; apply keeps_heap_reader. }
  split; [exact Hk |].
  pose proof (@chain_runs_on_the_original_dataset demo_host df0 ops) as W.
  destruct W as (_ & _ & _ & W). exact (W Hk (demo_world dups_table)).
Defined.

(** [hist(subset=["a"])] is titled in the singular. *)
Lemma hist_title_follows_len_of_subset_witness :
  @io_error demo_host (EvHist (TFrame (mkDataFrame ["a"] [[CInt 1]; [CInt 1]; [CInt 2]])) [])
    = None /\
  output_of (@DataFrameVet.hist demo_host df0 identity_fn (SList ["a"]) None [])
            (demo_world dups_table)
  = [EvHist (TFrame (mkDataFrame ["a"] [[CInt 1]; [CInt 1]; [CInt 2]])) [];
     EvSupTitle "Distribution"].
Proof.
  split; [reflexivity |].
  pose proof (@hist_title_follows_len_of_subset demo_host df0
                (demo_world dups_table) identity_fn (SList ["a"]) None []
                (VFrame (mkDataFrame ["a"] [[CInt 1]; [CInt 1]; [CInt 2]]))
                (TFrame (mkDataFrame ["a"] [[CInt 1]; [CInt 1]; [CInt 2]]))
                eq_refl eq_refl eq_refl) as W.
  cbv zeta in W. destruct W as (_ & W & _). destruct (W eq_refl) as (W1 & _).
  exact (W1 ["a"] eq_refl).
Defined.

(** [info(subset="nope")]: the header is printed, then the [KeyError]. *)
Lemma header_is_printed_before_the_data_is_resolved_witness :
  @DataFrameVet.info demo_host df0 identity_fn (SName "nope") (Some "Info") []
    (demo_world dups_table)
  = (Raise (Exn KeyError "'nope'"),
     @mkWorld demo_host (fun _ => dups_table) demo_options None
       [EvPrint ""; EvPrint "Info"]).
Proof.
  pose proof (@header_is_printed_before_the_data_is_resolved demo_host df0
                (demo_world dups_table) identity_fn (SName "nope")
                (Some "Info") [] true (Exn KeyError "'nope'") eq_refl) as W.
  destruct W as [W _]. exact W.
Defined.

(** [nnulls(subset="b")] on columns [a, b], rows [(1, None), (2, 2)]. *)
Lemma nnulls_on_a_series_ignores_by_column_witness :
  @DataFrameVet.nnulls demo_host df0 identity_fn (SName "b") true None
    (demo_world nulls_table)
  = (Ok (VObj 0%nat),
     @mkWorld demo_host (fun _ => nulls_table) demo_options None
       [EvPrint ""; EvPrint "👻 Rows with NaNs in b: 1 out of 2"]).
Proof.
  pose proof (@nnulls_on_a_series_ignores_by_column demo_host df0
                (demo_world nulls_table) identity_fn (SName "b") true
                (VSeries (mkSeries [CInt 0; CInt 1] [CNull; CInt 2]))
                (mkSeries [CInt 0; CInt 1] [CNull; CInt 2])
                eq_refl eq_refl) as W.
  cbv zeta in W. destruct W as [W _]. exact W.
Defined.

(** [nnulls(by_column=False, check_name="Nulls")]. *)
Lemma nnulls_with_a_check_name_prints_one_line_witness :
  "Nulls" <> "" /\
  @DataFrameVet.nnulls demo_host df0 identity_fn SNone false (Some "Nulls")
    (demo_world nulls_table)
  = (Ok (VObj 0%nat),
     @mkWorld demo_host (fun _ => nulls_table) demo_options None
       [EvPrint ""; EvPrint "Nulls: 1"]).
Proof.
  assert (Hname : "Nulls" <> "") by discriminate.
  split; [exact Hname |].
  pose proof (@nnulls_with_a_check_name_prints_one_line demo_host df0
                (demo_world nulls_table) identity_fn SNone false "Nulls"
                (VObj 0%nat) (VInt 1) Hname eq_refl eq_refl) as W.
  destruct W as [W _]. exact W.
Defined.

(** [write("out.xyz", subset="nope")]: the [KeyError], not the extension. *)
Lemma write_fails_before_writing_witness :
  @DataFrameVet.write demo_host df0 "out.xyz" identity_fn (SName "nope") true
    (demo_world dups_table)
  = (Raise (Exn KeyError "'nope'"), demo_world dups_table).
Proof.
  pose proof (@write_fails_before_writing demo_host df0 (demo_world dups_table)
                "out.xyz" identity_fn (SName "nope") true) as W.
  cbv zeta in W. destruct W as [W _].
  exact (W (Exn KeyError "'nope'") eq_refl).
Defined.

(** [plot(title="Mine", check_name="Other")]. *)
Lemma plot_title_overrides_check_name_witness :
  (exists v : pyval, In ("title", v) [("title", VStr "Mine")]) /\
  output_of (@DataFrameVet.plot demo_host df0 identity_fn SNone (Some "Other")
               [("title", VStr "Mine")]) (demo_world dups_table)
  = [EvPlot (TFrame dups_table) [("title", VStr "Mine")]].
Proof.
  assert (Hex : exists v : pyval, In ("title", v) [("title", VStr "Mine")]).
  { exists (VStr "Mine"). now left. }
  split; [exact Hex |].
  pose proof (@plot_title_overrides_check_name demo_host df0
                (demo_world dups_table) identity_fn SNone (Some "Other")
                [("title", VStr "Mine")] (VObj 0%nat) (TFrame dups_table)
                eq_refl eq_refl) as W.
  cbv zeta in W. destruct W as [W _]. exact (W Hex).
Defined.

(** [ncols(subset="a")] fails on the one-element shape. *)
Lemma ncols_and_columns_need_a_dataframe_witness :
  @DataFrameVet.ncols demo_host df0 identity_fn (SName "a") None
    (demo_world dups_table)
  = (Raise (Exn (OtherError "IndexError") "tuple index out of range"),
     demo_world dups_table).
Proof.
  pose proof (@ncols_and_columns_need_a_dataframe demo_host df0
                (demo_world dups_table) identity_fn (SName "a") None
                (VSeries (mkSeries [CInt 0; CInt 1; CInt 2]
                                   [CInt 1; CInt 1; CInt 2]))
                (mkSeries [CInt 0; CInt 1; CInt 2] [CInt 1; CInt 1; CInt 2])
                eq_refl eq_refl) as W.
  destruct W as [W _]. exact W.
Defined.
